(** * HackBar background script: capture, rule computation, teardown

    A shallow embedding of the extension's background script
    (the TypeScript part of [src/eslint-config/typescript.js]) and the
    properties of its request pipeline.

    Conventions.
    - A JavaScript string is a [string], read as the UTF-8 encoding of its
      text; the script itself only concatenates strings, compares them and
      tests them for emptiness.
    - A tab identifier (JavaScript number) is a [Z].
    - An optional property ([x?: T], or a value that may be [undefined]) is
      an [option].
    - Each event handler is run to completion on an explicit [World]; the
      interleaving of several handlers at their [await] points is not
      modelled. *)

From Stdlib Require Import ZArith String Ascii Strings.Byte List Bool Lia.
From stdpp Require Import base option list gmap strings.
Import ListNotations.

Local Open Scope string_scope.
Local Open Scope Z_scope.

(* ===================================================================== *)
(** * Data model *)
(* ===================================================================== *)

(** One header edit of the panel ([BrowseRequest['headers'][number]]). *)
Module Header.
Record t : Type := mk {
  enabled : bool;
  name : string;
  value : string;
  removeIfEmptyValue : bool;
  _createdAt : Z;
}.
End Header.

Module Body.
Record t : Type := mk {
  enctype : string;
  content : string;
}.
End Body.

(** The request snapshot ([BrowseRequest]). *)
Module BrowseRequest.
Record t : Type := mk {
  url : string;
  method : string;
  headers : list Header.t;
  body : Body.t;
}.
End BrowseRequest.

(** [browser.DeclarativeNetRequest.ModifyHeaderInfo]: the [operation] is one
    of the string literals 'set' and 'remove'; [value] is absent on a
    removal. *)
Inductive HeaderOperation : Type := SET | REMOVE.

Module ModifyHeaderInfo.
Record t : Type := mk {
  header : string;
  operation : HeaderOperation;
  value : option string;
}.
End ModifyHeaderInfo.

Module RuleAction.
Record t : Type := mk {
  type : string;
  requestHeaders : list ModifyHeaderInfo.t;
}.
End RuleAction.

Module RuleCondition.
Record t : Type := mk {
  tabIds : list Z;
  resourceTypes : list string;
}.
End RuleCondition.

Module Rule.
Record t : Type := mk {
  id : Z;
  action : RuleAction.t;
  condition : RuleCondition.t;
}.
End Rule.

(** [browser.DeclarativeNetRequest.UpdateRuleOptions]; [addRules] is an
    optional property. *)
Module UpdateRuleOptions.
Record t : Type := mk {
  removeRuleIds : list Z;
  addRules : option (list Rule.t);
}.
End UpdateRuleOptions.

(* ===================================================================== *)
(** * Rule computation (the pure part of the [execute] branch) *)
(* ===================================================================== *)

(** [header.enabled && header.name.length > 0] *)
Definition retained (header : Header.t) : bool :=
  Header.enabled header && (0 <? String.length (Header.name header))%nat.

(** The callback passed to [.map]: one directive per retained edit. *)
Definition toModifyHeaderInfo (header : Header.t) : ModifyHeaderInfo.t :=
  if negb (String.length (Header.value header) =? 0)%nat
     || negb (Header.removeIfEmptyValue header)
  then ModifyHeaderInfo.mk (Header.name header) SET (Some (Header.value header))
  else ModifyHeaderInfo.mk (Header.name header) REMOVE None.

(** [modifiedHeaders.filter(...).map(...)] *)
Definition sessionRules (modifiedHeaders : list Header.t)
  : list ModifyHeaderInfo.t :=
  List.map toModifyHeaderInfo (List.filter retained modifiedHeaders).

(** The rule added for a tab when there is at least one directive. *)
Definition sessionRule (tabId : Z) (rules : list ModifyHeaderInfo.t) : Rule.t :=
  Rule.mk tabId
    (RuleAction.mk "modifyHeaders" rules)
    (RuleCondition.mk [tabId] ["main_frame"]).

(** [updateRuleOptions], after the conditional assignment of [addRules]. *)
Definition updateRuleOptions (tabId : Z) (rules : list ModifyHeaderInfo.t)
  : UpdateRuleOptions.t :=
  UpdateRuleOptions.mk [tabId]
    (if (0 <? List.length rules)%nat
     then Some [sessionRule tabId rules]
     else None).

(* ===================================================================== *)
(** * Messages and events *)
(* ===================================================================== *)

(** The payload of a [test] message: [{action, script?}]. *)
Module TestData.
Record t : Type := mk {
  action : string;
  script : option string;
}.
End TestData.

(** [BackgroundFunctionMessage]: the union discriminated by [type], with
    the type guards of the script. *)
Inductive BackgroundFunctionMessage : Type :=
| BackgroundLoadMessage (tabId : Z)
| BackgroundExecuteMessage (tabId : Z) (data : BrowseRequest.t)
| BackgroundTestMessage (tabId : Z) (data : TestData.t).

Definition messageTabId (m : BackgroundFunctionMessage) : Z :=
  match m with
  | BackgroundLoadMessage tabId
  | BackgroundExecuteMessage tabId _
  | BackgroundTestMessage tabId _ => tabId
  end.

Definition isLoadMessage (m : BackgroundFunctionMessage) : bool :=
  match m with BackgroundLoadMessage _ => true | _ => false end.

Definition isExecuteMessage (m : BackgroundFunctionMessage) : bool :=
  match m with BackgroundExecuteMessage _ _ => true | _ => false end.

Definition isTestMessage (m : BackgroundFunctionMessage) : bool :=
  match m with BackgroundTestMessage _ _ => true | _ => false end.

(** A control-channel peer ([browser.Runtime.Port]) is an opaque host
    object; it is identified by a number. *)
Definition Port : Type := nat.

(** Messages posted to a peer.  The snapshot of a [load] message is what
    [tabStore.getBrowseRequest] returned, which may be [undefined]. *)
Inductive DevtoolsMessage : Type :=
| DevtoolsLoadMessage (data : option BrowseRequest.t)
| DevtoolsErrorMessage (data : string).

(** What [browser.tabs.sendMessage] carries to the page. *)
Inductive PageMessage : Type :=
| PageRequest (data : BrowseRequest.t)
| PageTest (data : TestData.t).

(** The calls the script makes on the host. *)
Inductive HostCall : Type :=
| UpdateSessionRules (options : UpdateRuleOptions.t)
| ExecuteScript (tabId : Z) (files : list (option string))
| TabsSendMessage (tabId : Z) (message : PageMessage)
| TabsUpdate (tabId : Z) (url : string)
| PostMessage (port : Port) (message : DevtoolsMessage).

(** One segment of [requestBody.raw] ([UploadData]). *)
Module UploadData.
Record t : Type := mk {
  bytes : option (list byte);
  file : option string;
}.
End UploadData.

(** A value of [requestBody.formData[name]]: a string or an [ArrayBuffer]. *)
Inductive FormDataItem : Type :=
| FormString (value : string)
| FormBuffer (value : list byte).

(** [requestBody]: [formData] is an object; it is given as the list of its
    properties in the order [for ... in] enumerates them. *)
Module RequestBody.
Record t : Type := mk {
  formData : option (list (string * list FormDataItem));
  raw : option (list UploadData.t);
}.
End RequestBody.

Module HttpHeader.
Record t : Type := mk {
  name : string;
  value : option string;
}.
End HttpHeader.

(** The [details] of a request-initiation event. *)
Module OnBeforeRequestDetails.
Record t : Type := mk {
  tabId : Z;
  url : string;
  method : string;
  requestBody : option RequestBody.t;
}.
End OnBeforeRequestDetails.

(** The [details] of a header-send event. *)
Module OnBeforeSendHeadersDetails.
Record t : Type := mk {
  tabId : Z;
  requestHeaders : option (list HttpHeader.t);
}.
End OnBeforeSendHeadersDetails.

(* ===================================================================== *)
(** * The Session Store *)
(* ===================================================================== *)

(** Modelled from the spec: the module './store' ([tabStore]) is imported by
    the script and is not among the sources.  The Session Store "maps a
    session identifier to its captured request snapshot and its
    control-channel peer", with "no logic beyond storage"; a lookup of an
    absent entry is [undefined] (the script guards it with [!] or with
    [if (!connection)]), and [remove] drops both entries of a tab. *)
Module tabStore.
Record t : Type := mk {
  requests : gmap Z BrowseRequest.t;
  connections : gmap Z Port;
}.

Definition empty : t := mk ∅ ∅.

Definition getConnection (s : t) (tabId : Z) : option Port :=
  connections s !! tabId.

Definition updateConnection (s : t) (tabId : Z) (connection : Port) : t :=
  mk (requests s) (<[tabId := connection]> (connections s)).

Definition getBrowseRequest (s : t) (tabId : Z) : option BrowseRequest.t :=
  requests s !! tabId.

Definition updateBrowseRequest (s : t) (tabId : Z) (request : BrowseRequest.t) : t :=
  mk (<[tabId := request]> (requests s)) (connections s).

Definition remove (s : t) (tabId : Z) : t :=
  mk (delete tabId (requests s)) (delete tabId (connections s)).
End tabStore.

(* ===================================================================== *)
(** * Worlds and the effects of a handler *)
(* ===================================================================== *)

(** The state a handler runs on: the Session Store, the session rules the
    host holds for the extension, and the calls made on the host so far
    (oldest first). *)
Record World : Type := mkWorld {
  store : tabStore.t;
  activeRules : list Rule.t;
  calls : list HostCall;
}.

(** What a handler can throw: [new Error(msg)], the [TypeError] of a
    property access on [undefined], and the rejection of a host call. *)
Inductive Exn : Type :=
| Error (message : string)
| TypeError (property : string)
| Rejected (call : HostCall).

Inductive Completion (A : Type) : Type :=
| Normal (a : A)
| Throw (e : Exn).
Arguments Normal {A} a.
Arguments Throw {A} e.

(** A computation with effects on the world; an exception keeps the
    effects made before it. *)
Definition JS (A : Type) : Type := World → Completion A * World.

#[export] Instance JS_ret : MRet JS := λ A a w, (Normal a, w).

#[export] Instance JS_bind : MBind JS := λ A B f m w,
  match m w with
  | (Normal a, w') => f a w'
  | (Throw e, w') => (Throw e, w')
  end.

Definition throw {A : Type} (e : Exn) : JS A := λ w, (Throw e, w).

Definition getStore : JS tabStore.t := λ w, (Normal (store w), w).

Definition setStore (s : tabStore.t) : JS unit :=
  λ w, (Normal tt, mkWorld s (activeRules w) (calls w)).

(** The non-null assertion [x!] followed by a property access: a
    [TypeError] when [x] is [undefined]. *)
Definition deref {A : Type} (x : option A) (property : string) : JS A :=
  match x with
  | Some a => mret a
  | None => throw (TypeError property)
  end.

(* ===================================================================== *)
(** * The page's messages ([runtime.onMessage]) and the keyboard commands
      ([commands.onCommand]) *)
(* ===================================================================== *)

(** [browser.Tabs.Tab] and [browser.Runtime.MessageSender], as far as the
    two listeners read them. *)
Module Tab.
Record t : Type := mk {
  id : option Z;
}.
End Tab.

Module MessageSender.
Record t : Type := mk {
  tab : option Tab.t;
}.
End MessageSender.

(** A tab id used as a condition: [undefined] and [0] are falsy. *)
Definition truthyId (id : option Z) : option Z :=
  match id with
  | Some n => if n =? 0 then None else Some n
  | None => None
  end.

(** The messages the two listeners post to a peer; [A] is the type of the
    page's message ([DevtoolsTestMessage['data']]). *)
Inductive PeerMessage (A : Type) : Type :=
| DevtoolsTestMessage (data : A)
| DevtoolsCommandMessage (data : string).
Arguments DevtoolsTestMessage {A} data.
Arguments DevtoolsCommandMessage {A} data.

(** One run of such a listener does at most one thing on a peer, a
    [postMessage]; what becomes of the run is one of: it returns without
    posting; the post is made and returns; the post is made and throws (a
    port the store still holds may be disconnected); an error ends the run
    before any post. *)
Inductive PeerOutcome (A : Type) : Type :=
| Ignored
| Posted (port : Port) (message : PeerMessage A)
| PostFailed (port : Port) (message : PeerMessage A)
| Faulted (e : Exn).
Arguments Ignored {A}.
Arguments Posted {A} port message.
Arguments PostFailed {A} port message.
Arguments Faulted {A} e.

(** [connection.postMessage(message)], on a host that says which posts
    throw. *)
Definition postToPeer {A : Type} (postFails : Port → PeerMessage A → bool)
    (connection : Port) (message : PeerMessage A) : PeerOutcome A :=
  if postFails connection message then PostFailed connection message
  else Posted connection message.

Definition onMessage {A : Type} (postFails : Port → PeerMessage A → bool)
    (message : A) (sender : MessageSender.t) (s : tabStore.t) : PeerOutcome A :=
  match truthyId (MessageSender.tab sender ≫= Tab.id) with
  | Some id =>
      match tabStore.getConnection s id with
      | Some connection =>
          postToPeer postFails connection (DevtoolsTestMessage message)
      | None => Faulted (TypeError "postMessage")
      end
  | None => Ignored
  end.

(** [tabs] is the settlement of [browser.tabs.query]: its answer, or the
    error the [await] rethrows. *)
Definition onCommand {A : Type} (postFails : Port → PeerMessage A → bool)
    (tabs : Completion (list Tab.t)) (command : string) (s : tabStore.t)
  : PeerOutcome A :=
  match tabs with
  | Throw e => Faulted e
  | Normal [] => Faulted (TypeError "id")
  | Normal (tab :: _) =>
      match truthyId (Tab.id tab) with
      | None => Ignored
      | Some tabId =>
          match tabStore.getConnection s tabId with
          | None => Ignored
          | Some connection =>
              postToPeer postFails connection (DevtoolsCommandMessage command)
          end
      end
  end.

(* ===================================================================== *)
(** * [URLSearchParams] *)
(* ===================================================================== *)

(** The host's [URLSearchParams], as far as the script uses it: [append]
    adds a pair at the end and [toString] is the
    application/x-www-form-urlencoded serializer of the URL standard (bytes
    other than ASCII alphanumerics and [*-._] are percent-encoded, a space
    becomes [+]). *)
Module URLSearchParams.
Definition t : Type := list (string * string).

Definition new : t := [].

Definition append (params : t) (name value : string) : t :=
  (params ++ [(name, value)])%list.

Definition isAlphanumeric (n : N) : bool :=
  ((48 <=? n) && (n <=? 57) || (65 <=? n) && (n <=? 90)
   || (97 <=? n) && (n <=? 122))%N.

(** Outside the application/x-www-form-urlencoded percent-encode set. *)
Definition unreserved (c : ascii) : bool :=
  let n := N_of_ascii c in
  (isAlphanumeric n || (n =? 42) || (n =? 45) || (n =? 46) || (n =? 95))%N.

Definition hexDigit (n : N) : ascii :=
  (if n <? 10 then ascii_of_N (48 + n) else ascii_of_N (55 + n))%N.

Definition percentEncode (c : ascii) : string :=
  let n := N_of_ascii c in
  String "%" (String (hexDigit (n / 16)) (String (hexDigit (n mod 16)) "")).

Fixpoint serializeString (s : string) : string :=
  match s with
  | EmptyString => EmptyString
  | String c rest =>
      (if Ascii.eqb c " " then "+"
       else if unreserved c then String c ""
       else percentEncode c) +:+ serializeString rest
  end.

Definition serializePair (p : string * string) : string :=
  serializeString p.1 +:+ "=" +:+ serializeString p.2.

Definition toString (params : t) : string :=
  String.concat "&" (List.map serializePair params).
End URLSearchParams.

(* ===================================================================== *)
(** * The body processors *)
(* ===================================================================== *)

(** The interface of a body processor, as the script calls it. *)
Module BodyProcessor.
Record t : Type := mk {
  getName : string;
  getFormEnctype : string;
  getHttpContentType : string;
}.
End BodyProcessor.

(** The interface of the registry [bodyProcessors] (module '../processors',
    not among the sources), as the script calls it. *)
Module BodyProcessors.
Record t : Type := mk {
  find : string → option BodyProcessor.t;
  findByContentType : string → option BodyProcessor.t;
  getDefaultProcessor : BodyProcessor.t;
  getDefaultProcessorName : string;
}.
End BodyProcessors.

(** [Array.prototype.includes] on an array of strings. *)
Definition includes (l : list string) (x : string) : bool :=
  existsb (String.eqb x) l.

(* ===================================================================== *)
(** * The background script *)
(* ===================================================================== *)

(** What the script takes from its surroundings.
    - Imported by the script and not among the sources: the registry of
      body processors and the constant list of methods that carry a body.
    - The platform: [TextDecoder.prototype.decode] of [new TextDecoder()]
      and the case conversions of [String.prototype].
    - The host: which rules [updateSessionRules] accepts, which other calls
      fail, and what the page answers to [tabs.sendMessage] ([null], here
      [None], or an error string). *)
Class Env : Type := {
  bodyProcessors : BodyProcessors.t;
  BodyAvailableMethods : list string;
  decode : list byte → string;
  toUpperCase : string → string;
  toLowerCase : string → string;
  validRule : Rule.t → bool;
  hostFails : HostCall → bool;
  pageReply : Z → PageMessage → option string;
}.

Section Background.
Context {env : Env}.

(** ** The host's session rules *)

(** [declarativeNetRequest.updateSessionRules]: the rules whose id is listed
    in [removeRuleIds] are removed first (an id without a rule is ignored),
    then the rules of [addRules] are added; the update is atomic, and fails
    when an added rule is invalid or its id is already in use. *)
Definition removeRules (ids : list Z) (table : list Rule.t) : list Rule.t :=
  List.filter (λ r, negb (existsb (Z.eqb (Rule.id r)) ids)) table.

(** No added rule takes an id that is still in use or is added twice. *)
Definition idsFree (added kept : list Rule.t) : bool :=
  bool_decide (NoDup (List.map Rule.id added))
  && forallb
       (λ r, negb (existsb (Z.eqb (Rule.id r)) (List.map Rule.id kept)))
       added.

Definition applyUpdate (options : UpdateRuleOptions.t) (table : list Rule.t)
  : option (list Rule.t) :=
  let kept := removeRules (UpdateRuleOptions.removeRuleIds options) table in
  let added :=
    match UpdateRuleOptions.addRules options with
    | Some rules => rules
    | None => []
    end in
  if forallb validRule added && idsFree added kept
  then Some (kept ++ added)%list
  else None.

Definition record (call : HostCall) (w : World) : World :=
  mkWorld (store w) (activeRules w) (calls w ++ [call]).

Definition updateSessionRules (options : UpdateRuleOptions.t) : JS unit :=
  λ w,
    let w' := record (UpdateSessionRules options) w in
    match applyUpdate options (activeRules w') with
    | Some table => (Normal tt, mkWorld (store w') table (calls w'))
    | None => (Throw (Rejected (UpdateSessionRules options)), w')
    end.

(** Any other call on the host: recorded, and rejected when the host says
    so. *)
Definition hostCall (call : HostCall) : JS unit :=
  λ w,
    let w' := record call w in
    if hostFails call then (Throw (Rejected call), w') else (Normal tt, w').

Definition executeScript (tabId : Z) (files : list (option string)) : JS unit :=
  hostCall (ExecuteScript tabId files).

Definition sendMessage (tabId : Z) (message : PageMessage) : JS (option string) :=
  hostCall (TabsSendMessage tabId message);;
  mret (pageReply tabId message).

Definition tabsUpdate (tabId : Z) (url : string) : JS unit :=
  hostCall (TabsUpdate tabId url).

Definition postMessage (port : Port) (message : DevtoolsMessage) : JS unit :=
  hostCall (PostMessage port message).

(** ** [handleMessage] *)

(** The header edit pushed for a processor whose form enctype is not its
    HTTP content type. *)
Definition contentTypeHeader (processor : BodyProcessor.t) : Header.t :=
  Header.mk true "content-type" (BodyProcessor.getHttpContentType processor)
    false 0.

(** The first part of the [execute] branch: [modifiedHeaders] after the
    conditional [push], or the error thrown for an unknown enctype. *)
Definition modifiedHeaders (data : BrowseRequest.t) : JS (list Header.t) :=
  let modifiedHeaders := BrowseRequest.headers data in
  if includes BodyAvailableMethods (BrowseRequest.method data) then
    match BodyProcessors.find bodyProcessors
            (Body.enctype (BrowseRequest.body data)) with
    | None => throw (Error "Unsupported enctype")
    | Some processor =>
        if negb (String.eqb (BodyProcessor.getFormEnctype processor)
                            (BodyProcessor.getHttpContentType processor))
        then mret (modifiedHeaders ++ [contentTypeHeader processor])%list
        else mret modifiedHeaders
    end
  else mret modifiedHeaders.

(** [modifiedHeaders] is [message.data.headers] itself, so the [push] is
    seen by whoever receives [message.data] afterwards. *)
Definition withHeaders (data : BrowseRequest.t) (headers : list Header.t)
  : BrowseRequest.t :=
  BrowseRequest.mk (BrowseRequest.url data) (BrowseRequest.method data)
    headers (BrowseRequest.body data).

(** The last part of the [execute] branch, after the rule update: the body
    is submitted in the page, or the tab is navigated. *)
Definition replay (tabId : Z) (data : BrowseRequest.t) : JS unit :=
  if includes BodyAvailableMethods (BrowseRequest.method data) then
    executeScript tabId [Some "core/post.js"];;
    error ← sendMessage tabId (PageRequest data);
    match error with
    | Some error =>
        s ← getStore;
        connection ← deref (tabStore.getConnection s tabId) "postMessage";
        postMessage connection (DevtoolsErrorMessage error)
    | None => mret tt
    end
  else
    tabsUpdate tabId (BrowseRequest.url data).

(** [handleMessage] is an async function: what it gives its caller is a
    promise, and its completion here is the settlement of that promise,
    [Normal] for fulfilled and [Throw] for rejected.  An error thrown in its
    body, before the first [await] too, is a rejection and not an exception
    of the call. *)
Definition handleMessage (message : BackgroundFunctionMessage) : JS unit :=
  match message with
  | BackgroundLoadMessage tabId =>
      s ← getStore;
      connection ← deref (tabStore.getConnection s tabId) "postMessage";
      postMessage connection
        (DevtoolsLoadMessage (tabStore.getBrowseRequest s tabId))
  | BackgroundExecuteMessage tabId data =>
      headers ← modifiedHeaders data;
      updateSessionRules (updateRuleOptions tabId (sessionRules headers));;
      replay tabId (withHeaders data headers)
  | BackgroundTestMessage tabId data =>
      (if String.eqb (TestData.action data) "start"
       then executeScript tabId [TestData.script data]
       else mret tt);;
      sendMessage tabId (PageTest data);;
      mret tt
  end.

(** The listener of a control-channel connection: the peer is attached to
    the tab of the message, then [handleMessage] is started; its promise is
    dropped, so the listener itself completes normally.  The completion of
    the dropped promise is returned for inspection. *)
Definition devToolsListener (devToolsConnection : Port)
    (message : BackgroundFunctionMessage) : JS (Completion unit) :=
  λ w,
    let s := tabStore.updateConnection (store w) (messageTabId message)
               devToolsConnection in
    let w1 := mkWorld s (activeRules w) (calls w) in
    let (c, w2) := handleMessage message w1 in
    (Normal c, w2).

(** ** The capture listener ([webRequest.onBeforeRequest]) *)

(** [value instanceof ArrayBuffer ? decoder.decode(value) : value] *)
Definition fieldContent (value : FormDataItem) : string :=
  match value with
  | FormBuffer value => decode value
  | FormString value => value
  end.

(** The [for ... in] loop over [formData], with its inner [forEach]. *)
Definition appendFormData (formData : list (string * list FormDataItem))
    (params : URLSearchParams.t) : URLSearchParams.t :=
  fold_left
    (λ params field,
       fold_left
         (λ params value,
            URLSearchParams.append params field.1 (fieldContent value))
         field.2 params)
    formData params.

(** The callback passed to [raw.map]; an empty [file] is falsy. *)
Definition segmentContent (data : UploadData.t) : string :=
  match UploadData.file data with
  | Some (String c file) => "[Content of '" +:+ String c file +:+ "']"
  | _ =>
      match UploadData.bytes data with
      | None => ""
      | Some bytes => decode bytes
      end
  end.

(** [array.join('')] *)
Definition join (l : list string) : string := String.concat "" l.

Definition bodyContent (requestBody : option RequestBody.t) : string :=
  match requestBody with
  | None => ""
  | Some requestBody =>
      match RequestBody.formData requestBody with
      | Some formData =>
          URLSearchParams.toString (appendFormData formData URLSearchParams.new)
      | None =>
          match RequestBody.raw requestBody with
          | Some raw => join (List.map segmentContent raw)
          | None => ""
          end
      end
  end.

Definition onBeforeRequest (details : OnBeforeRequestDetails.t) : JS unit :=
  let bodyContent := bodyContent (OnBeforeRequestDetails.requestBody details) in
  let url := OnBeforeRequestDetails.url details in
  let body :=
    Body.mk (BodyProcessors.getDefaultProcessorName bodyProcessors)
      bodyContent in
  s ← getStore;
  setStore
    (tabStore.updateBrowseRequest s (OnBeforeRequestDetails.tabId details)
       (BrowseRequest.mk url
          (toUpperCase (OnBeforeRequestDetails.method details)) [] body)).

(** ** The encoding resolver ([webRequest.onBeforeSendHeaders]) *)

(** [details.requestHeaders?.find(...)] *)
Definition findContentTypeHeader (details : OnBeforeSendHeadersDetails.t)
  : option HttpHeader.t :=
  match OnBeforeSendHeadersDetails.requestHeaders details with
  | None => None
  | Some requestHeaders =>
      List.find
        (λ header, String.eqb (toLowerCase (HttpHeader.name header)) "content-type")
        requestHeaders
  end.

(** [request.body.enctype = enctype] on the stored object. *)
Definition withEnctype (request : BrowseRequest.t) (enctype : string)
  : BrowseRequest.t :=
  BrowseRequest.mk (BrowseRequest.url request) (BrowseRequest.method request)
    (BrowseRequest.headers request)
    (Body.mk enctype (Body.content (BrowseRequest.body request))).

Definition onBeforeSendHeaders (details : OnBeforeSendHeadersDetails.t)
  : JS unit :=
  match findContentTypeHeader details with
  | None => mret tt
  | Some contentTypeHeader =>
      let tabId := OnBeforeSendHeadersDetails.tabId details in
      s ← getStore;
      let request := tabStore.getBrowseRequest s tabId in
      let processor :=
        default (BodyProcessors.getDefaultProcessor bodyProcessors)
          (BodyProcessors.findByContentType bodyProcessors
             (default "" (HttpHeader.value contentTypeHeader))) in
      request ← deref request "body";
      let request := withEnctype request (BodyProcessor.getName processor) in
      setStore (tabStore.updateBrowseRequest s tabId request)
  end.

(** ** The lifecycle manager *)

(** [details] enters the handler through [details.tabId] only. *)
Definition handleResponseCompleted (tabId : Z) : JS unit :=
  updateSessionRules (UpdateRuleOptions.mk [tabId] None).

(** The three subscriptions, all with the one handler. *)
Inductive TerminalEvent : Type := onBeforeRedirect | onCompleted | onErrorOccurred.

Definition onTerminalEvent (event : TerminalEvent) (tabId : Z) : JS unit :=
  match event with
  | onBeforeRedirect => handleResponseCompleted tabId
  | onCompleted => handleResponseCompleted tabId
  | onErrorOccurred => handleResponseCompleted tabId
  end.

(** ** Tab removal ([tabs.onRemoved]) *)

Definition onRemoved (tabId : Z) : JS unit :=
  s ← getStore;
  setStore (tabStore.remove s tabId).

(** ** The events of the script, one after the other *)

(** The events a world goes through.  A handler that throws ends there; the
    next event finds the world as the handler left it. *)
Inductive Event : Type :=
| ControlMessage (devToolsConnection : Port) (message : BackgroundFunctionMessage)
| BeforeRequest (details : OnBeforeRequestDetails.t)
| BeforeSendHeaders (details : OnBeforeSendHeadersDetails.t)
| Terminal (event : TerminalEvent) (tabId : Z)
| TabRemoved (tabId : Z).

Definition dispatch (event : Event) (w : World) : World :=
  match event with
  | ControlMessage devToolsConnection message =>
      (devToolsListener devToolsConnection message w).2
  | BeforeRequest details => (onBeforeRequest details w).2
  | BeforeSendHeaders details => (onBeforeSendHeaders details w).2
  | Terminal event tabId => (onTerminalEvent event tabId w).2
  | TabRemoved tabId => (onRemoved tabId w).2
  end.

Definition run (events : list Event) (w : World) : World :=
  fold_left (λ w event, dispatch event w) events w.

(** An event that can add a rule to the table. *)
Definition isExecute (event : Event) : bool :=
  match event with
  | ControlMessage _ message => isExecuteMessage message
  | _ => false
  end.

(** A directive as the host wants it: a header name, and a value exactly
    on a "set". *)
Definition wellFormedDirective (d : ModifyHeaderInfo.t) : Prop :=
  ModifyHeaderInfo.header d ≠ ""
  ∧ match ModifyHeaderInfo.operation d with
    | SET => is_Some (ModifyHeaderInfo.value d)
    | REMOVE => ModifyHeaderInfo.value d = None
    end.

(** A rule as the script builds it: it modifies headers, of main-frame
    requests, of the tab whose id is the rule's id, by at least one
    well-formed directive. *)
Definition scriptRule (r : Rule.t) : Prop :=
  RuleAction.type (Rule.action r) = "modifyHeaders"
  ∧ RuleAction.requestHeaders (Rule.action r) ≠ []
  ∧ Forall wellFormedDirective (RuleAction.requestHeaders (Rule.action r))
  ∧ RuleCondition.tabIds (Rule.condition r) = [Rule.id r]
  ∧ RuleCondition.resourceTypes (Rule.condition r) = ["main_frame"].

Definition tableInvariant (table : list Rule.t) : Prop :=
  NoDup (List.map Rule.id table) ∧ Forall scriptRule table.

(** ** Notions used to state the properties *)

(** The rules of a tab in the host's table. *)
Definition rulesOf (tabId : Z) (table : list Rule.t) : list Rule.t :=
  List.filter (λ r, Z.eqb (Rule.id r) tabId) table.

(** A computation is quiet when all it does to the world is to add host
    calls: the Session Store and the rule table stay as they are. *)
Definition quiet {A : Type} (m : JS A) : Prop :=
  ∀ w, ∃ rest,
    (m w).2 = mkWorld (store w) (activeRules w) (calls w ++ rest)
    ∧ Forall (λ c, ∀ o, c ≠ UpdateSessionRules o) rest.

(** The body of an event that exposes raw segments only. *)
Definition rawBody (raw : list UploadData.t) : option RequestBody.t :=
  Some (RequestBody.mk None (Some raw)).

(** [decode] on bytes below 128 gives the characters with these codes. *)
Definition decodesAscii : Prop :=
  ∀ bytes,
    Forall (λ b, (Byte.to_N b < 128)%N) bytes →
    decode bytes = string_of_list_byte bytes.

(** The pairs of a form: the fields in order, each value of a field with
    the field's name. *)
Definition formPairs (formData : list (string * list FormDataItem))
  : list (string * string) :=
  flat_map (λ field, List.map (λ value, (field.1, fieldContent value)) field.2)
    formData.

(** The characters a serialized name or value is made of. *)
Definition urlencodedChar (c : ascii) : bool :=
  URLSearchParams.unreserved c || Ascii.eqb c "%" || Ascii.eqb c "+".

(** The enctype a header-send event gives to the snapshot of its tab: the
    name of the processor found for the value of its content-type header
    (of the default processor when none is found), and for an event
    without such a header the name the capture gave. *)
Definition resolvedEnctype (details : OnBeforeSendHeadersDetails.t) : string :=
  match findContentTypeHeader details with
  | Some contentTypeHeader =>
      BodyProcessor.getName
        (default (BodyProcessors.getDefaultProcessor bodyProcessors)
           (BodyProcessors.findByContentType bodyProcessors
              (default "" (HttpHeader.value contentTypeHeader))))
  | None => BodyProcessors.getDefaultProcessorName bodyProcessors
  end.

(** The snapshot of a captured request once its headers were sent. *)
Definition capturedSnapshot (capture : OnBeforeRequestDetails.t)
    (headers : OnBeforeSendHeadersDetails.t) : BrowseRequest.t :=
  BrowseRequest.mk (OnBeforeRequestDetails.url capture)
    (toUpperCase (OnBeforeRequestDetails.method capture)) []
    (Body.mk (resolvedEnctype headers)
       (bodyContent (OnBeforeRequestDetails.requestBody capture))).

(** Reading a serialized name or value back, to show that nothing is lost:
    [+] is a space and [%] with two hexadecimal digits is the byte they
    denote. *)
Definition hexValue (c : ascii) : N :=
  let n := N_of_ascii c in
  (if n <? 58 then n - 48 else n - 55)%N.

Fixpoint unescape (s : string) : string :=
  match s with
  | EmptyString => EmptyString
  | String c rest =>
      if Ascii.eqb c "+" then String " " (unescape rest)
      else if Ascii.eqb c "%" then
        match rest with
        | String high (String low rest') =>
            String (ascii_of_N (16 * hexValue high + hexValue low))
              (unescape rest')
        | _ => String c (unescape rest)
        end
      else String c (unescape rest)
  end.

(** Whether a character occurs in a string. *)
Fixpoint occurs (c : ascii) (s : string) : bool :=
  match s with
  | EmptyString => false
  | String c' rest => Ascii.eqb c' c || occurs c rest
  end.

(** The body of an event that exposes form data (whatever else it has). *)
Definition formBody (formData : list (string * list FormDataItem))
    (raw : option (list UploadData.t)) : option RequestBody.t :=
  Some (RequestBody.mk (Some formData) raw).

End Background.

(* ===================================================================== *)
(** * A sample environment, for evaluation on concrete inputs *)
(* ===================================================================== *)

Module Sample.

Definition urlencoded : BodyProcessor.t :=
  BodyProcessor.mk "application/x-www-form-urlencoded"
    "application/x-www-form-urlencoded" "application/x-www-form-urlencoded".

Definition json : BodyProcessor.t :=
  BodyProcessor.mk "application/json" "text/plain" "application/json".

Definition processors : list BodyProcessor.t := [urlencoded; json].

Definition registry : BodyProcessors.t :=
  BodyProcessors.mk
    (λ name,
       List.find (λ p, String.eqb (BodyProcessor.getName p) name) processors)
    (λ type,
       List.find (λ p, String.eqb (BodyProcessor.getHttpContentType p) type)
         processors)
    urlencoded
    (BodyProcessor.getName urlencoded).

Definition mapAscii (f : N → N) (s : string) : string :=
  string_of_list_ascii
    (List.map (λ c, ascii_of_N (f (N_of_ascii c))) (list_ascii_of_string s)).

(** Case conversion of the ASCII letters. *)
Definition upper : string → string :=
  mapAscii (λ n, if (97 <=? n) && (n <=? 122) then n - 32 else n)%N.

Definition lower : string → string :=
  mapAscii (λ n, if (65 <=? n) && (n <=? 90) then n + 32 else n)%N.

(** A host that accepts every rule and every call, and a page that answers
    [null]. *)
Definition env : Env := {|
  bodyProcessors := registry;
  BodyAvailableMethods := ["POST"];
  decode := string_of_list_byte;
  toUpperCase := upper;
  toLowerCase := lower;
  validRule := λ _, true;
  hostFails := λ _, false;
  pageReply := λ _ _, None;
|}.

Definition emptyWorld : World := mkWorld tabStore.empty [] [].

Definition header (name value : string) (removeIfEmptyValue : bool) : Header.t :=
  Header.mk true name value removeIfEmptyValue 1.

(** Edited requests: a JSON body, a form body, a body with an enctype that
    has no processor, and a request without a body. *)
Definition request (method enctype : string) : BrowseRequest.t :=
  BrowseRequest.mk "http://example.test/login" method [header "x-a" "1" false]
    (Body.mk enctype "a=1").

Definition jsonRequest : BrowseRequest.t := request "POST" "application/json".

Definition formRequest : BrowseRequest.t :=
  request "POST" "application/x-www-form-urlencoded".

Definition xmlRequest : BrowseRequest.t := request "POST" "text/xml".

Definition getRequest : BrowseRequest.t :=
  request "GET" "application/x-www-form-urlencoded".

(** The snapshot a capture leaves for tab 7. *)
Definition snapshot : BrowseRequest.t :=
  BrowseRequest.mk "http://example.test/login" "POST" []
    (Body.mk "application/x-www-form-urlencoded" "a=1").

(** Tab 7 with its snapshot, a peer attached, and a rule active. *)
Definition activeRule : Rule.t :=
  sessionRule 7 [ModifyHeaderInfo.mk "x-a" SET (Some "1")].

Definition busyWorld : World :=
  mkWorld
    (tabStore.updateBrowseRequest
       (tabStore.updateConnection tabStore.empty 7 1%nat) 7 snapshot)
    [activeRule] [].

(** A header-send event of tab 7 with a content-type header, and one
    without. *)
Definition jsonHeaders : OnBeforeSendHeadersDetails.t :=
  OnBeforeSendHeadersDetails.mk 7
    (Some [HttpHeader.mk "Accept" (Some "*/*");
           HttpHeader.mk "Content-Type" (Some "application/json")]).

Definition plainHeaders : OnBeforeSendHeadersDetails.t :=
  OnBeforeSendHeadersDetails.mk 7 (Some [HttpHeader.mk "Accept" (Some "*/*")]).

(** Other hosts: one that finds every rule invalid, one that cannot inject
    scripts, and one whose page answers with an error. *)
Definition hostWith (validRule : Rule.t → bool) (hostFails : HostCall → bool)
    (pageReply : Z → PageMessage → option string) : Env := {|
  bodyProcessors := registry;
  BodyAvailableMethods := ["POST"];
  decode := string_of_list_byte;
  toUpperCase := upper;
  toLowerCase := lower;
  validRule := validRule;
  hostFails := hostFails;
  pageReply := pageReply;
|}.

Definition strictHost : Env := hostWith (λ _, false) (λ _, false) (λ _ _, None).

Definition noInjection : Env :=
  hostWith (λ _, true)
    (λ call, match call with ExecuteScript _ _ => true | _ => false end)
    (λ _ _, None).

Definition failingPage : Env :=
  hostWith (λ _, true) (λ _, false) (λ _ _, Some "no form").

(** The capture of a form submission in tab 7. *)
Definition capture : OnBeforeRequestDetails.t :=
  OnBeforeRequestDetails.mk 7 "http://example.test/login" "post"
    (Some (RequestBody.mk (Some [("a", [FormString "1"])]) None)).

(** A history of tab 7: capture, headers, load, execute, completion, and the
    same without the execute. *)
Definition history : list Event :=
  [BeforeRequest capture; BeforeSendHeaders jsonHeaders;
   ControlMessage 1%nat (BackgroundLoadMessage 7);
   ControlMessage 1%nat (BackgroundExecuteMessage 7 jsonRequest);
   Terminal onCompleted 7].

Definition quietHistory : list Event :=
  [BeforeRequest capture; BeforeSendHeaders jsonHeaders;
   ControlMessage 1%nat (BackgroundLoadMessage 7);
   Terminal onBeforeRedirect 8; TabRemoved 7].

End Sample.

(* ===================================================================== *)
(** * Properties of the rule computation *)
(* ===================================================================== *)

Lemma length_zero_empty (s : string) : (String.length s =? 0)%nat = true ↔ s = "".
Proof.
  destruct s; simpl; split; intros Hs; try reflexivity; discriminate Hs.
Qed.

Lemma length_pos_nonempty (s : string) : (0 <? String.length s)%nat = true ↔ s ≠ "".
Proof.
  destruct s as [| c s]; cbn.
  - split; [discriminate | intros Hs; contradiction Hs; reflexivity].
  - split; [discriminate | reflexivity].
Qed.

Lemma sessionRules_app (l1 l2 : list Header.t) :
  sessionRules (l1 ++ l2) = (sessionRules l1 ++ sessionRules l2)%list.
Proof.
  unfold sessionRules. rewrite List.filter_app. apply List.map_app.
Qed.

Lemma sessionRules_retained (h : Header.t) (l : list Header.t) :
  retained h = true →
  sessionRules (h :: l) = toModifyHeaderInfo h :: sessionRules l.
Proof. intros Hh. unfold sessionRules. simpl. rewrite Hh. reflexivity. Qed.

Lemma sessionRules_dropped (h : Header.t) (l : list Header.t) :
  retained h = false → sessionRules (h :: l) = sessionRules l.
Proof. intros Hh. unfold sessionRules. simpl. rewrite Hh. reflexivity. Qed.

Lemma retained_spec (h : Header.t) :
  retained h = true ↔ Header.enabled h = true ∧ Header.name h ≠ "".
Proof.
  unfold retained. rewrite andb_true_iff, length_pos_nonempty. reflexivity.
Qed.

Lemma toModifyHeaderInfo_set (h : Header.t) :
  Header.value h ≠ "" ∨ Header.removeIfEmptyValue h = false →
  toModifyHeaderInfo h
  = ModifyHeaderInfo.mk (Header.name h) SET (Some (Header.value h)).
Proof.
  intros Hset. unfold toModifyHeaderInfo.
  destruct (String.length (Header.value h) =? 0)%nat eqn:Hlen; simpl.
  - destruct Hset as [Hv | Hr].
    + apply length_zero_empty in Hlen. contradiction.
    + rewrite Hr. reflexivity.
  - reflexivity.
Qed.

Lemma toModifyHeaderInfo_remove (h : Header.t) :
  Header.value h = "" → Header.removeIfEmptyValue h = true →
  toModifyHeaderInfo h = ModifyHeaderInfo.mk (Header.name h) REMOVE None.
Proof.
  intros Hv Hr. unfold toModifyHeaderInfo. rewrite Hv, Hr. reflexivity.
Qed.

(** C1. In any list of header edits, an edit that is enabled and has a
    non-empty name contributes exactly one directive, at its place: a "set"
    with the edit's value when the value is non-empty or the
    remove-if-empty flag is false, a "remove" when the value is empty and
    the flag is true.  An edit that is disabled or has an empty name
    contributes nothing. *)
Theorem C1_header_directives (before after : list Header.t) (h : Header.t) :
  (Header.enabled h = true → Header.name h ≠ "" →
   Header.value h ≠ "" ∨ Header.removeIfEmptyValue h = false →
   sessionRules (before ++ h :: after)
   = (sessionRules before
      ++ ModifyHeaderInfo.mk (Header.name h) SET (Some (Header.value h))
      :: sessionRules after)%list)
  ∧ (Header.enabled h = true → Header.name h ≠ "" →
     Header.value h = "" → Header.removeIfEmptyValue h = true →
     sessionRules (before ++ h :: after)
     = (sessionRules before
        ++ ModifyHeaderInfo.mk (Header.name h) REMOVE None
        :: sessionRules after)%list)
  ∧ (Header.enabled h = false ∨ Header.name h = "" →
     sessionRules (before ++ h :: after)
     = (sessionRules before ++ sessionRules after)%list).
Proof.
  rewrite sessionRules_app.
  split; [| split].
  - intros He Hn Hset.
    rewrite sessionRules_retained by (apply retained_spec; auto).
    rewrite toModifyHeaderInfo_set by assumption. reflexivity.
  - intros He Hn Hv Hr.
    rewrite sessionRules_retained by (apply retained_spec; auto).
    rewrite toModifyHeaderInfo_remove by assumption. reflexivity.
  - intros Hdrop.
    rewrite sessionRules_dropped; [reflexivity |].
    destruct (retained h) eqn:Hret; [| reflexivity].
    apply retained_spec in Hret. destruct Hret as [He Hn].
    destruct Hdrop as [Hd | Hd]; congruence.
Qed.

Lemma C1_header_directives_witness :
  sessionRules ([Sample.header "a" "1" true] ++ Sample.header "b" "" false :: [])
  = [ModifyHeaderInfo.mk "a" SET (Some "1"); ModifyHeaderInfo.mk "b" SET (Some "")]
  ∧ sessionRules ([] ++ Sample.header "b" "" true :: [Sample.header "a" "1" true])
    = [ModifyHeaderInfo.mk "b" REMOVE None; ModifyHeaderInfo.mk "a" SET (Some "1")]
  ∧ sessionRules ([Sample.header "a" "1" true] ++ Sample.header "" "v" false :: [])
    = [ModifyHeaderInfo.mk "a" SET (Some "1")].
Proof.
  split; [| split].
  - apply (C1_header_directives [Sample.header "a" "1" true] []
             (Sample.header "b" "" false));
      [reflexivity | discriminate | right; reflexivity].
  - apply (C1_header_directives [] [Sample.header "a" "1" true]
             (Sample.header "b" "" true));
      [reflexivity | discriminate | reflexivity | reflexivity].
  - apply (C1_header_directives [Sample.header "a" "1" true] []
             (Sample.header "" "v" false)).
    right. reflexivity.
Defined.

(* ===================================================================== *)
(** * Properties of the handlers *)
(* ===================================================================== *)

Section Properties.
Context {env : Env}.

Ltac js_unfold :=
  unfold mbind, mret, JS_bind, JS_ret, throw, getStore, setStore, deref.

Ltac js_run := repeat progress (js_unfold; simpl).

(** ** The host's rule table *)

Lemma removeRules_single (tabId : Z) (table : list Rule.t) :
  removeRules [tabId] table
  = List.filter (λ r, negb (Z.eqb (Rule.id r) tabId)) table.
Proof.
  unfold removeRules. apply List.filter_ext. intros r. simpl.
  rewrite orb_false_r. reflexivity.
Qed.

Lemma rulesOf_removeRules (tabId : Z) (table : list Rule.t) :
  rulesOf tabId (removeRules [tabId] table) = [].
Proof.
  rewrite removeRules_single. unfold rulesOf.
  induction table as [| r table IH]; simpl; [reflexivity |].
  destruct (Rule.id r =? tabId) eqn:Hid; simpl; [exact IH |].
  rewrite Hid. exact IH.
Qed.

Lemma rulesOf_removeRules_ne (tabId other : Z) (table : list Rule.t) :
  other ≠ tabId →
  rulesOf other (removeRules [tabId] table) = rulesOf other table.
Proof.
  intros Hne. rewrite removeRules_single. unfold rulesOf.
  induction table as [| r table IH]; simpl; [reflexivity |].
  destruct (Rule.id r =? tabId) eqn:Hid; simpl.
  - apply Z.eqb_eq in Hid.
    destruct (Rule.id r =? other) eqn:Ho; [| exact IH].
    apply Z.eqb_eq in Ho. congruence.
  - destruct (Rule.id r =? other); [f_equal |]; exact IH.
Qed.

Lemma removeRules_absent (tabId : Z) (table : list Rule.t) :
  rulesOf tabId table = [] → removeRules [tabId] table = table.
Proof.
  rewrite removeRules_single. unfold rulesOf.
  induction table as [| r table IH]; simpl; [reflexivity |].
  destruct (Rule.id r =? tabId); simpl; [discriminate |].
  intros Hnone. f_equal. exact (IH Hnone).
Qed.

Lemma removeRules_idempotent (tabId : Z) (table : list Rule.t) :
  removeRules [tabId] (removeRules [tabId] table) = removeRules [tabId] table.
Proof. apply removeRules_absent, rulesOf_removeRules. Qed.

Lemma removeRules_ids_sublist (ids : list Z) (table : list Rule.t) :
  sublist (List.map Rule.id (removeRules ids table)) (List.map Rule.id table).
Proof.
  unfold removeRules. induction table as [| r table IH]; simpl.
  - constructor.
  - destruct (negb _); simpl; [apply sublist_skip | apply sublist_cons]; exact IH.
Qed.

Lemma removeRules_not_in (tabId : Z) (table : list Rule.t) :
  tabId ∉ List.map Rule.id (removeRules [tabId] table).
Proof.
  rewrite removeRules_single.
  induction table as [| r table IH]; simpl.
  - apply not_elem_of_nil.
  - destruct (Rule.id r =? tabId) eqn:Hid; simpl; [exact IH |].
    apply not_elem_of_cons. split; [| exact IH].
    apply Z.eqb_neq in Hid. congruence.
Qed.

(** A removal is always accepted. *)
Lemma applyUpdate_remove (ids : list Z) (table : list Rule.t) :
  applyUpdate (UpdateRuleOptions.mk ids None) table = Some (removeRules ids table).
Proof. unfold applyUpdate. simpl. rewrite app_nil_r. reflexivity. Qed.

(** Replacing the rule of a tab fails only when the host finds the new rule
    invalid: its id has just been freed. *)
Lemma applyUpdate_replace (tabId : Z) (rule : Rule.t) (table : list Rule.t) :
  Rule.id rule = tabId →
  applyUpdate (UpdateRuleOptions.mk [tabId] (Some [rule])) table
  = if validRule rule then Some (removeRules [tabId] table ++ [rule])%list
    else None.
Proof.
  intros Hid. unfold applyUpdate, idsFree.
  cbn [UpdateRuleOptions.addRules UpdateRuleOptions.removeRuleIds
       forallb List.map].
  rewrite bool_decide_eq_true_2 by (apply NoDup_singleton).
  rewrite !andb_true_r, andb_true_l.
  destruct (validRule rule); cbn [andb]; [| reflexivity].
  destruct (existsb _ _) eqn:Hex; [| reflexivity].
  apply existsb_exists in Hex. destruct Hex as [i [Hin Heq]].
  apply Z.eqb_eq in Heq. subst i. rewrite Hid in Hin.
  apply list_elem_of_In in Hin.
  exfalso. exact (removeRules_not_in tabId table Hin).
Qed.

(** Every accepted update keeps the ids of the table distinct. *)
Lemma applyUpdate_NoDup (options : UpdateRuleOptions.t) (table table' : list Rule.t) :
  NoDup (List.map Rule.id table) →
  applyUpdate options table = Some table' →
  NoDup (List.map Rule.id table').
Proof.
  intros Hnd. unfold applyUpdate, idsFree.
  set (kept := removeRules _ table).
  set (added := match UpdateRuleOptions.addRules options with
                | Some rules => rules | None => [] end).
  destruct (forallb validRule added); simpl; [| discriminate].
  destruct (bool_decide (NoDup (List.map Rule.id added))) eqn:Hadd; simpl;
    [| discriminate].
  destruct (forallb _ added) eqn:Hfree; [| discriminate].
  intros [= <-]. rewrite List.map_app. apply NoDup_app.
  split; [| split].
  - exact (sublist_NoDup _ _ Hnd (removeRules_ids_sublist _ table)).
  - intros i Hkept Hadded.
    apply list_elem_of_In, in_map_iff in Hadded.
    destruct Hadded as [r [<- Hr]].
    rewrite forallb_forall in Hfree. specialize (Hfree r Hr).
    apply negb_true_iff in Hfree.
    assert (Hex : existsb (Z.eqb (Rule.id r)) (List.map Rule.id kept) = true).
    { apply existsb_exists. exists (Rule.id r). split.
      - apply list_elem_of_In. exact Hkept.
      - apply Z.eqb_refl. }
    congruence.
  - apply bool_decide_eq_true in Hadd. exact Hadd.
Qed.

(** ** Computations that only talk to the host *)

Lemma quiet_ret {A : Type} (a : A) : quiet (mret a).
Proof.
  intros [s t c]. exists []. simpl. rewrite app_nil_r. split; [reflexivity | constructor].
Qed.

Lemma quiet_throw {A : Type} (e : Exn) : quiet (@throw A e).
Proof.
  intros [s t c]. exists []. simpl. rewrite app_nil_r. split; [reflexivity | constructor].
Qed.

Lemma quiet_getStore : quiet getStore.
Proof.
  intros [s t c]. exists []. simpl. rewrite app_nil_r. split; [reflexivity | constructor].
Qed.

Lemma quiet_deref {A : Type} (x : option A) (property : string) :
  quiet (deref x property).
Proof. destruct x; [apply quiet_ret | apply quiet_throw]. Qed.

Lemma quiet_bind {A B : Type} (m : JS A) (f : A → JS B) :
  quiet m → (∀ a, quiet (f a)) → quiet (m ≫= f).
Proof.
  intros Hm Hf w. unfold mbind, JS_bind.
  destruct (Hm w) as [rest1 [Hw1 Hrest1]].
  destruct (m w) as [[a | e] w1]; simpl in Hw1; subst w1.
  - destruct (Hf a (mkWorld (store w) (activeRules w) (calls w ++ rest1)))
      as [rest2 [Hw2 Hrest2]].
    exists (rest1 ++ rest2)%list. rewrite Hw2. simpl.
    rewrite app_assoc. split; [reflexivity | apply Forall_app; auto].
  - exists rest1. auto.
Qed.

Lemma quiet_hostCall (call : HostCall) :
  (∀ o, call ≠ UpdateSessionRules o) → quiet (hostCall call).
Proof.
  intros Hcall w. exists [call]. unfold hostCall, record.
  split; [destruct (hostFails call); reflexivity |].
  constructor; [exact Hcall | constructor].
Qed.

Lemma quiet_sendMessage (tabId : Z) (message : PageMessage) :
  quiet (sendMessage tabId message).
Proof.
  apply quiet_bind; [apply quiet_hostCall; discriminate |].
  intros _. apply quiet_ret.
Qed.

Lemma quiet_replay (tabId : Z) (data : BrowseRequest.t) : quiet (replay tabId data).
Proof.
  unfold replay.
  destruct (includes BodyAvailableMethods (BrowseRequest.method data)).
  - apply quiet_bind; [apply quiet_hostCall; discriminate |]. intros _.
    apply quiet_bind; [apply quiet_sendMessage |]. intros [error |].
    + apply quiet_bind; [apply quiet_getStore |]. intros s.
      apply quiet_bind; [apply quiet_deref |]. intros connection.
      apply quiet_hostCall. discriminate.
    + apply quiet_ret.
  - apply quiet_hostCall. discriminate.
Qed.

(** ** The [execute] branch *)

(** [modifiedHeaders] does not touch the world. *)
Lemma modifiedHeaders_world (data : BrowseRequest.t) (w : World) :
  (modifiedHeaders data w).2 = w.
Proof.
  unfold modifiedHeaders.
  destruct (includes _ _); [| reflexivity].
  destruct (BodyProcessors.find _ _) as [processor |]; [| reflexivity].
  destruct (negb _); reflexivity.
Qed.

(** Once the headers are computed, the branch submits one rule update and
    goes on to the replay. *)
Lemma handleMessage_execute (tabId : Z) (data : BrowseRequest.t)
    (headers : list Header.t) (w : World) :
  modifiedHeaders data w = (Normal headers, w) →
  handleMessage (BackgroundExecuteMessage tabId data) w
  = (updateSessionRules (updateRuleOptions tabId (sessionRules headers));;
     replay tabId (withHeaders data headers)) w.
Proof.
  intros Hheaders. unfold handleMessage.
  unfold mbind at 1. unfold JS_bind at 1. rewrite Hheaders. reflexivity.
Qed.

(** The world after the rule update and the replay: the store is the same,
    the rule table is the updated one when the host accepts the update and
    the old one when it rejects it, and the update is the first new call and
    the only rule update among the new calls. *)
Lemma update_then_replay (tabId : Z) (data : BrowseRequest.t)
    (options : UpdateRuleOptions.t) (w : World) :
  let w' := (updateSessionRules options;; replay tabId data) w in
  store w'.2 = store w
  ∧ activeRules w'.2 = default (activeRules w) (applyUpdate options (activeRules w))
  ∧ (applyUpdate options (activeRules w) = None →
     w'.1 = Throw (Rejected (UpdateSessionRules options)))
  ∧ ∃ rest, calls w'.2 = (calls w ++ UpdateSessionRules options :: rest)%list
            ∧ Forall (λ c, ∀ o, c ≠ UpdateSessionRules o) rest.
Proof.
  unfold mbind, JS_bind, updateSessionRules, record. simpl.
  destruct (applyUpdate options (activeRules w)) as [table |] eqn:Happly.
  - destruct (quiet_replay tabId data
                (mkWorld (store w) table (calls w ++ [UpdateSessionRules options])))
      as [rest [Hw Hrest]].
    rewrite Hw. simpl. repeat split; [discriminate |].
    exists rest. rewrite <- app_assoc. auto.
  - simpl. repeat split. exists []. split; [reflexivity | constructor].
Qed.

Lemma updateRuleOptions_nil (tabId : Z) :
  updateRuleOptions tabId [] = UpdateRuleOptions.mk [tabId] None.
Proof. reflexivity. Qed.

Lemma updateRuleOptions_cons (tabId : Z) (d : ModifyHeaderInfo.t)
    (rules : list ModifyHeaderInfo.t) :
  updateRuleOptions tabId (d :: rules)
  = UpdateRuleOptions.mk [tabId] (Some [sessionRule tabId (d :: rules)]).
Proof. reflexivity. Qed.

Lemma sessionRules_contentTypeHeader (processor : BodyProcessor.t) :
  sessionRules [contentTypeHeader processor]
  = [ModifyHeaderInfo.mk "content-type" SET
       (Some (BodyProcessor.getHttpContentType processor))].
Proof.
  rewrite sessionRules_retained by reflexivity.
  rewrite toModifyHeaderInfo_set by (right; reflexivity).
  reflexivity.
Qed.

Lemma rulesOf_app (tabId : Z) (l1 l2 : list Rule.t) :
  rulesOf tabId (l1 ++ l2) = (rulesOf tabId l1 ++ rulesOf tabId l2)%list.
Proof. apply List.filter_app. Qed.

(** C6, as the script has it.  An [execute] message whose method carries a
    body and whose enctype has no processor makes [handleMessage] fail with
    "Unsupported enctype" before anything else happens: no call is made on
    the host, and the Session Store and the rule table are the ones it
    started with.  The error is the rejection of the promise of
    [handleMessage]; it is not raised to the caller: the listener of the
    connection, which has attached the sending peer to the tab, drops the
    promise and completes normally, with no call made on the host and the
    snapshots and the rule table unchanged. *)
Theorem C6_unsupported_enctype (devToolsConnection : Port) (tabId : Z)
    (data : BrowseRequest.t) (w : World) :
  includes BodyAvailableMethods (BrowseRequest.method data) = true →
  BodyProcessors.find bodyProcessors (Body.enctype (BrowseRequest.body data))
  = None →
  handleMessage (BackgroundExecuteMessage tabId data) w
  = (Throw (Error "Unsupported enctype"), w)
  ∧ devToolsListener devToolsConnection (BackgroundExecuteMessage tabId data) w
    = (Normal (Throw (Error "Unsupported enctype")),
       mkWorld (tabStore.updateConnection (store w) tabId devToolsConnection)
         (activeRules w) (calls w)).
Proof.
  intros Hmethod Hfind.
  assert (Hthrows : ∀ w0, handleMessage (BackgroundExecuteMessage tabId data) w0
                          = (Throw (Error "Unsupported enctype"), w0)).
  { intros w0. unfold handleMessage, modifiedHeaders.
    rewrite Hmethod, Hfind. reflexivity. }
  split; [apply Hthrows |].
  unfold devToolsListener. rewrite Hthrows. reflexivity.
Qed.

(** The update built from a list of directives, and its effect on a table
    when the host accepts it. *)
Lemma replaceRule_table (tabId : Z) (directives : list ModifyHeaderInfo.t)
    (table : list Rule.t) :
  let rule :=
    Rule.mk tabId (RuleAction.mk "modifyHeaders" directives)
      (RuleCondition.mk [tabId] ["main_frame"]) in
  let added := match directives with [] => [] | _ :: _ => [rule] end in
  let options :=
    UpdateRuleOptions.mk [tabId]
      (match directives with [] => None | _ :: _ => Some [rule] end) in
  updateRuleOptions tabId directives = options
  ∧ (directives = [] ∨ validRule rule = true →
     applyUpdate options table = Some (removeRules [tabId] table ++ added)%list)
  ∧ rulesOf tabId (removeRules [tabId] table ++ added) = added
  ∧ (∀ other, other ≠ tabId →
       rulesOf other (removeRules [tabId] table ++ added) = rulesOf other table).
Proof.
  destruct directives as [| d directives]; cbv zeta.
  - split; [reflexivity |].
    rewrite app_nil_r.
    split; [intros _; apply applyUpdate_remove |].
    split; [apply rulesOf_removeRules |].
    intros other Hother. apply rulesOf_removeRules_ne. exact Hother.
  - split; [reflexivity |].
    split.
    + intros [Hnil | Hvalid]; [discriminate |].
      rewrite applyUpdate_replace by reflexivity.
      rewrite Hvalid. reflexivity.
    + split.
      * rewrite rulesOf_app, rulesOf_removeRules.
        unfold rulesOf. simpl. rewrite Z.eqb_refl. reflexivity.
      * intros other Hother.
        rewrite rulesOf_app, rulesOf_removeRules_ne by exact Hother.
        unfold rulesOf at 2. simpl.
        apply Z.eqb_neq in Hother. rewrite Z.eqb_sym, Hother. apply app_nil_r.
Qed.

(** C2. For an [execute] message whose method carries a body and whose
    enctype has a processor: when the processor's form enctype differs from
    its HTTP content type, one header edit (enabled, "content-type", the
    HTTP content type, remove-if-empty false) is appended to the edited
    headers; the one rule update submitted to the host then adds the rule of
    the tab whose directives are those of the user's edits followed by
    exactly one "set" of content-type, and this is the rule active for the
    tab once the host has accepted it.  When the two are equal nothing is
    appended, and the rule submitted has the user's directives only. *)
Theorem C2_synthetic_content_type (tabId : Z) (data : BrowseRequest.t)
    (processor : BodyProcessor.t) (w : World) :
  includes BodyAvailableMethods (BrowseRequest.method data) = true →
  BodyProcessors.find bodyProcessors (Body.enctype (BrowseRequest.body data))
  = Some processor →
  let user := BrowseRequest.headers data in
  let wire := BodyProcessor.getHttpContentType processor in
  let w' := (handleMessage (BackgroundExecuteMessage tabId data) w).2 in
  (BodyProcessor.getFormEnctype processor ≠ wire →
   let rule :=
     Rule.mk tabId
       (RuleAction.mk "modifyHeaders"
          (sessionRules user
           ++ [ModifyHeaderInfo.mk "content-type" SET (Some wire)]))
       (RuleCondition.mk [tabId] ["main_frame"]) in
   modifiedHeaders data w
   = (Normal (user ++ [Header.mk true "content-type" wire false 0])%list, w)
   ∧ (∃ rest,
        calls w'
        = (calls w
           ++ UpdateSessionRules (UpdateRuleOptions.mk [tabId] (Some [rule]))
           :: rest)%list
        ∧ Forall (λ c, ∀ o, c ≠ UpdateSessionRules o) rest)
   ∧ (validRule rule = true → rulesOf tabId (activeRules w') = [rule]))
  ∧ (BodyProcessor.getFormEnctype processor = wire →
     modifiedHeaders data w = (Normal user, w)
     ∧ ∃ rest,
         calls w'
         = (calls w
            ++ UpdateSessionRules
                 (UpdateRuleOptions.mk [tabId]
                    (match sessionRules user with
                     | [] => None
                     | _ :: _ =>
                         Some [Rule.mk tabId
                                 (RuleAction.mk "modifyHeaders" (sessionRules user))
                                 (RuleCondition.mk [tabId] ["main_frame"])]
                     end))
            :: rest)%list
         ∧ Forall (λ c, ∀ o, c ≠ UpdateSessionRules o) rest).
Proof.
  intros Hmethod Hfind user wire w'. subst user wire w'.
  split; intros Htypes.
  - intros rule.
    set (directives :=
           (sessionRules (BrowseRequest.headers data)
            ++ [ModifyHeaderInfo.mk "content-type" SET
                  (Some (BodyProcessor.getHttpContentType processor))])%list)
      in *.
    assert (Hheaders :
              modifiedHeaders data w
              = (Normal (BrowseRequest.headers data
                         ++ [contentTypeHeader processor])%list, w)).
    { unfold modifiedHeaders. rewrite Hmethod, Hfind.
      apply String.eqb_neq in Htypes. rewrite Htypes. reflexivity. }
    split; [exact Hheaders |].
    rewrite (handleMessage_execute _ _ _ _ Hheaders).
    rewrite sessionRules_app, sessionRules_contentTypeHeader. fold directives.
    assert (Hoptions : updateRuleOptions tabId directives
                       = UpdateRuleOptions.mk [tabId] (Some [rule])).
    { unfold updateRuleOptions, directives.
      rewrite length_app, Nat.add_comm. reflexivity. }
    rewrite Hoptions.
    destruct (update_then_replay tabId
                (withHeaders data
                   (BrowseRequest.headers data ++ [contentTypeHeader processor]))
                (UpdateRuleOptions.mk [tabId] (Some [rule])) w)
      as (_ & Hrules & _ & Hcalls).
    split; [exact Hcalls |].
    intros Hvalid. rewrite Hrules.
    rewrite applyUpdate_replace by reflexivity. rewrite Hvalid.
    cbn [default from_option id]. rewrite rulesOf_app, rulesOf_removeRules.
    unfold rulesOf, rule. cbn [List.filter Rule.id app]. rewrite Z.eqb_refl.
    reflexivity.
  - assert (Hheaders : modifiedHeaders data w
                       = (Normal (BrowseRequest.headers data), w)).
    { unfold modifiedHeaders. rewrite Hmethod, Hfind.
      apply String.eqb_eq in Htypes. rewrite Htypes. reflexivity. }
    split; [exact Hheaders |].
    rewrite (handleMessage_execute _ _ _ _ Hheaders).
    destruct (replaceRule_table tabId (sessionRules (BrowseRequest.headers data))
                (activeRules w)) as (Hoptions & _).
    rewrite Hoptions.
    destruct (update_then_replay tabId
                (withHeaders data (BrowseRequest.headers data))
                (UpdateRuleOptions.mk [tabId]
                   (match sessionRules (BrowseRequest.headers data) with
                    | [] => None
                    | _ :: _ =>
                        Some [Rule.mk tabId
                                (RuleAction.mk "modifyHeaders"
                                   (sessionRules (BrowseRequest.headers data)))
                                (RuleCondition.mk [tabId] ["main_frame"])]
                    end)) w)
      as (_ & _ & _ & Hcalls).
    exact Hcalls.
Qed.

(** C3. An [execute] message for tab S that gets as far as the rule update
    submits exactly one update.  It always lists S for removal; it adds a
    rule, with id S and scoped to tab S and main_frame requests, exactly
    when there is at least one directive.  When the host accepts the
    update, the rules with id S in the table are that one rule or none, and
    the rules of the other tabs are untouched; the ids of the table stay
    distinct, so that no tab ever has two active rules. *)
Theorem C3_rule_replacement (tabId : Z) (data : BrowseRequest.t)
    (headers : list Header.t) (w : World) :
  modifiedHeaders data w = (Normal headers, w) →
  let directives := sessionRules headers in
  let rule :=
    Rule.mk tabId (RuleAction.mk "modifyHeaders" directives)
      (RuleCondition.mk [tabId] ["main_frame"]) in
  let added := match directives with [] => [] | _ :: _ => [rule] end in
  let options :=
    UpdateRuleOptions.mk [tabId]
      (match directives with [] => None | _ :: _ => Some [rule] end) in
  let w' := (handleMessage (BackgroundExecuteMessage tabId data) w).2 in
  (∃ rest,
     calls w' = (calls w ++ UpdateSessionRules options :: rest)%list
     ∧ Forall (λ c, ∀ o, c ≠ UpdateSessionRules o) rest)
  ∧ (directives = [] ∨ validRule rule = true →
     activeRules w' = (removeRules [tabId] (activeRules w) ++ added)%list
     ∧ rulesOf tabId (activeRules w') = added
     ∧ ∀ other, other ≠ tabId →
         rulesOf other (activeRules w') = rulesOf other (activeRules w))
  ∧ (NoDup (List.map Rule.id (activeRules w)) →
     NoDup (List.map Rule.id (activeRules w'))).
Proof.
  intros Hheaders directives rule added options w'.
  destruct (replaceRule_table tabId directives (activeRules w))
    as (Hoptions & Haccepted & Hown & Hothers).
  fold rule added options in Hoptions, Haccepted, Hown, Hothers.
  unfold w'. rewrite (handleMessage_execute _ _ _ _ Hheaders).
  fold directives. rewrite Hoptions.
  destruct (update_then_replay tabId (withHeaders data headers) options w)
    as (_ & Hrules & _ & Hcalls).
  split; [exact Hcalls |]. rewrite Hrules. clear Hrules Hcalls.
  split.
  - intros Hok. rewrite (Haccepted Hok). simpl. auto.
  - intros Hnd.
    destruct (applyUpdate options (activeRules w)) as [table |] eqn:Happly;
      simpl; [| exact Hnd].
    exact (applyUpdate_NoDup _ _ _ Hnd Happly).
Qed.

(** ** The lifecycle manager *)

Lemma handleResponseCompleted_run (tabId : Z) (w : World) :
  handleResponseCompleted tabId w
  = (Normal tt,
     mkWorld (store w) (removeRules [tabId] (activeRules w))
       (calls w ++ [UpdateSessionRules (UpdateRuleOptions.mk [tabId] None)])).
Proof.
  unfold handleResponseCompleted, updateSessionRules, record.
  cbn [activeRules store calls]. rewrite applyUpdate_remove. reflexivity.
Qed.

Lemma onTerminalEvent_run (event : TerminalEvent) (tabId : Z) (w : World) :
  onTerminalEvent event tabId w = handleResponseCompleted tabId w.
Proof. destruct event; reflexivity. Qed.

(** C4. Each of the three terminal events of a main-document request of tab
    S completes normally and leaves no rule with id S in the table, the
    rules of the other tabs and the Session Store being untouched.  The
    removal is idempotent: a second terminal event leaves the table as the
    first one left it, and when there is no rule for S the table does not
    change and the event still completes normally. *)
Theorem C4_terminal_event_teardown (event event' : TerminalEvent) (tabId : Z)
    (w : World) :
  let r := onTerminalEvent event tabId w in
  let r' := onTerminalEvent event' tabId r.2 in
  r.1 = Normal tt
  ∧ rulesOf tabId (activeRules r.2) = []
  ∧ (∀ other, other ≠ tabId →
       rulesOf other (activeRules r.2) = rulesOf other (activeRules w))
  ∧ store r.2 = store w
  ∧ r'.1 = Normal tt
  ∧ activeRules r'.2 = activeRules r.2
  ∧ (rulesOf tabId (activeRules w) = [] → activeRules r.2 = activeRules w).
Proof.
  intros r r'. subst r r'.
  rewrite !onTerminalEvent_run, !handleResponseCompleted_run. simpl.
  split; [reflexivity |].
  split; [apply rulesOf_removeRules |].
  split; [intros other Hother; apply rulesOf_removeRules_ne; exact Hother |].
  split; [reflexivity |].
  split; [reflexivity |].
  split; [apply removeRules_idempotent | apply removeRules_absent].
Qed.

(** ** The [load] branch *)

(** C7, as the script has it.  A [load] message for tab S is never dropped.
    It arrives on a connection; the listener of the connection makes that
    connection the peer of S, whether or not S had a peer, and the stored
    snapshot of S is posted to it as it is (or [undefined] when there is
    none); this post is the only call made on the host.  [handleMessage]
    thus runs with a peer attached for S, and all it does then is that
    post. *)
Theorem C7_load_forwards_snapshot (tabId : Z) (w : World) :
  let snapshot := tabStore.getBrowseRequest (store w) tabId in
  (∀ connection,
     tabStore.getConnection (store w) tabId = Some connection →
     let post := PostMessage connection (DevtoolsLoadMessage snapshot) in
     handleMessage (BackgroundLoadMessage tabId) w
     = (if hostFails post then Throw (Rejected post) else Normal tt,
        mkWorld (store w) (activeRules w) (calls w ++ [post])))
  ∧ (∀ devToolsConnection,
       let post := PostMessage devToolsConnection (DevtoolsLoadMessage snapshot) in
       devToolsListener devToolsConnection (BackgroundLoadMessage tabId) w
       = (Normal (if hostFails post then Throw (Rejected post) else Normal tt),
          mkWorld
            (tabStore.updateConnection (store w) tabId devToolsConnection)
            (activeRules w) (calls w ++ [post]))).
Proof.
  intros snapshot. subst snapshot. split.
  - intros connection Hconnection post. subst post.
    unfold handleMessage. js_run. rewrite Hconnection. js_run.
    unfold postMessage, hostCall, record.
    destruct (hostFails _); reflexivity.
  - intros devToolsConnection post. subst post.
    unfold devToolsListener, handleMessage. js_run.
    unfold tabStore.getConnection, tabStore.updateConnection. simpl.
    rewrite lookup_insert_eq. js_run.
    unfold postMessage, hostCall, record. simpl.
    destruct (hostFails _); reflexivity.
Qed.

(** ** The encoding resolver *)

(** C10. On a header-send event whose headers contain a content-type
    header, the stored snapshot of the tab is dereferenced without a check.
    When a snapshot is stored, the handler completes and only the
    snapshot's enctype changes, to the name of the processor found for the
    header's value (the default processor when none is found); when no
    snapshot is stored, the handler throws a [TypeError] and changes
    nothing. *)
Theorem C10_encoding_resolver_dereference (details : OnBeforeSendHeadersDetails.t)
    (contentTypeHeader : HttpHeader.t) (w : World) :
  findContentTypeHeader details = Some contentTypeHeader →
  let tabId := OnBeforeSendHeadersDetails.tabId details in
  let processor :=
    default (BodyProcessors.getDefaultProcessor bodyProcessors)
      (BodyProcessors.findByContentType bodyProcessors
         (default "" (HttpHeader.value contentTypeHeader))) in
  (∀ request,
     tabStore.getBrowseRequest (store w) tabId = Some request →
     onBeforeSendHeaders details w
     = (Normal tt,
        mkWorld
          (tabStore.updateBrowseRequest (store w) tabId
             (BrowseRequest.mk (BrowseRequest.url request)
                (BrowseRequest.method request) (BrowseRequest.headers request)
                (Body.mk (BodyProcessor.getName processor)
                   (Body.content (BrowseRequest.body request)))))
          (activeRules w) (calls w)))
  ∧ (tabStore.getBrowseRequest (store w) tabId = None →
     onBeforeSendHeaders details w = (Throw (TypeError "body"), w)).
Proof.
  intros Hheader tabId processor. unfold onBeforeSendHeaders.
  rewrite Hheader. js_unfold. simpl. fold tabId. split.
  - intros request Hrequest. rewrite Hrequest. reflexivity.
  - intros Hnone. rewrite Hnone. reflexivity.
Qed.

(** ** Tab removal *)

Lemma onBeforeSendHeaders_no_content_type (details : OnBeforeSendHeadersDetails.t)
    (w : World) :
  findContentTypeHeader details = None →
  onBeforeSendHeaders details w = (Normal tt, w).
Proof. intros Hnone. unfold onBeforeSendHeaders. rewrite Hnone. reflexivity. Qed.

(** C5, as the script has it.  A tab-removal event for tab S removes the
    Session Store entry of S, snapshot and peer, and leaves the entries of
    the other tabs alone.  It makes no call on the host, so the rule table
    is as it was.  Afterwards a terminal request event for S completes
    normally and leaves no rule for S, and a header-send event without a
    content-type header changes nothing. *)
Theorem C5_tab_removal_clears_store (tabId : Z) (w : World) :
  let r := onRemoved tabId w in
  r.1 = Normal tt
  ∧ tabStore.getBrowseRequest (store r.2) tabId = None
  ∧ tabStore.getConnection (store r.2) tabId = None
  ∧ (∀ other, other ≠ tabId →
       tabStore.getBrowseRequest (store r.2) other
       = tabStore.getBrowseRequest (store w) other
       ∧ tabStore.getConnection (store r.2) other
         = tabStore.getConnection (store w) other)
  ∧ activeRules r.2 = activeRules w
  ∧ calls r.2 = calls w
  ∧ (∀ event,
       (onTerminalEvent event tabId r.2).1 = Normal tt
       ∧ rulesOf tabId (activeRules (onTerminalEvent event tabId r.2).2) = []
       ∧ store (onTerminalEvent event tabId r.2).2 = store r.2)
  ∧ (∀ details,
       findContentTypeHeader details = None →
       onBeforeSendHeaders details r.2 = (Normal tt, r.2)).
Proof.
  intros r. subst r. unfold onRemoved. js_unfold. simpl.
  unfold tabStore.getBrowseRequest, tabStore.getConnection, tabStore.remove.
  simpl.
  split; [reflexivity |].
  split; [apply lookup_delete_eq |].
  split; [apply lookup_delete_eq |].
  split.
  { intros other Hother.
    split; apply lookup_delete_ne; congruence. }
  split; [reflexivity |].
  split; [reflexivity |].
  split.
  - intros event.
    rewrite onTerminalEvent_run, handleResponseCompleted_run. simpl.
    split; [reflexivity |].
    split; [apply rulesOf_removeRules | reflexivity].
  - intros details Hnone. apply onBeforeSendHeaders_no_content_type, Hnone.
Qed.

(** ** The capture listener *)

Lemma append_empty_r (s : string) : s +:+ "" = s.
Proof.
  induction s as [| c s IH]; [reflexivity |].
  change (String c (s +:+ "") = String c s). f_equal. exact IH.
Qed.

Lemma join_cons (s : string) (l : list string) : join (s :: l) = s +:+ join l.
Proof.
  unfold join. destruct l as [| s' l]; simpl.
  - symmetry. apply append_empty_r.
  - reflexivity.
Qed.

(** What the listener writes for a request body: the snapshot has the
    event's URL, the upper-cased method, no header edits, the default
    processor's name as enctype and the reconstructed content. *)
Lemma onBeforeRequest_run (details : OnBeforeRequestDetails.t) (w : World) :
  onBeforeRequest details w
  = (Normal tt,
     mkWorld
       (tabStore.updateBrowseRequest (store w)
          (OnBeforeRequestDetails.tabId details)
          (BrowseRequest.mk (OnBeforeRequestDetails.url details)
             (toUpperCase (OnBeforeRequestDetails.method details)) []
             (Body.mk (BodyProcessors.getDefaultProcessorName bodyProcessors)
                (bodyContent (OnBeforeRequestDetails.requestBody details)))))
       (activeRules w) (calls w)).
Proof. reflexivity. Qed.

(** C8. For an event that exposes raw byte segments, the body stored in the
    snapshot is the concatenation, in order, of one text per segment: the
    placeholder naming the file for a segment with a file, the decoded
    bytes for a segment with bytes and no file, and nothing for a segment
    with neither.  With a decoder that is exact on ASCII, the segments
    [{bytes: "hello "}, {file: "f.bin"}] give "hello [Content of 'f.bin']". *)
Theorem C8_raw_segments (tabId : Z) (url method : string)
    (raw : list UploadData.t) (w : World) :
  (tabStore.getBrowseRequest
     (store (onBeforeRequest
               (OnBeforeRequestDetails.mk tabId url method (rawBody raw)) w).2)
     tabId
   = Some (BrowseRequest.mk url (toUpperCase method) []
             (Body.mk (BodyProcessors.getDefaultProcessorName bodyProcessors)
                (bodyContent (rawBody raw)))))
  ∧ bodyContent (rawBody []) = ""
  ∧ (∀ segment rest file,
       UploadData.file segment = Some file → file ≠ "" →
       bodyContent (rawBody (segment :: rest))
       = ("[Content of '" +:+ file +:+ "']") +:+ bodyContent (rawBody rest))
  ∧ (∀ segment rest bytes,
       UploadData.file segment = None ∨ UploadData.file segment = Some "" →
       UploadData.bytes segment = Some bytes →
       bodyContent (rawBody (segment :: rest))
       = decode bytes +:+ bodyContent (rawBody rest))
  ∧ (∀ segment rest,
       UploadData.file segment = None ∨ UploadData.file segment = Some "" →
       UploadData.bytes segment = None →
       bodyContent (rawBody (segment :: rest)) = bodyContent (rawBody rest))
  ∧ (decodesAscii →
     bodyContent
       (rawBody [UploadData.mk (Some (list_byte_of_string "hello ")) None;
                 UploadData.mk None (Some "f.bin")])
     = "hello [Content of 'f.bin']").
Proof.
  split.
  { rewrite onBeforeRequest_run. simpl.
    unfold tabStore.getBrowseRequest, tabStore.updateBrowseRequest. simpl.
    apply lookup_insert_eq. }
  split; [reflexivity |].
  assert (Hcons : ∀ segment rest,
            bodyContent (rawBody (segment :: rest))
            = segmentContent segment +:+ bodyContent (rawBody rest)).
  { intros segment rest. unfold bodyContent, rawBody. simpl. apply join_cons. }
  split; [| split; [| split]].
  - intros segment rest file Hfile Hne. rewrite Hcons. f_equal.
    unfold segmentContent. rewrite Hfile.
    destruct file as [| c file]; [contradiction Hne |]; reflexivity.
  - intros segment rest bytes Hfile Hbytes. rewrite Hcons. f_equal.
    unfold segmentContent.
    destruct Hfile as [-> | ->]; rewrite Hbytes; reflexivity.
  - intros segment rest Hfile Hbytes. rewrite Hcons.
    unfold segmentContent.
    destruct Hfile as [-> | ->]; rewrite Hbytes; reflexivity.
  - intros Hdecode. unfold bodyContent, rawBody, join, segmentContent. simpl.
    rewrite Hdecode; [reflexivity |].
    repeat constructor.
Qed.

Lemma appendValues (name : string) (values : list FormDataItem)
    (params : URLSearchParams.t) :
  fold_left
    (λ params value, URLSearchParams.append params name (fieldContent value))
    values params
  = (params ++ List.map (λ value, (name, fieldContent value)) values)%list.
Proof.
  revert params. induction values as [| value values IH]; intros params; simpl.
  - symmetry. apply app_nil_r.
  - rewrite IH. unfold URLSearchParams.append. rewrite <- app_assoc. reflexivity.
Qed.

Lemma appendFormData_pairs (formData : list (string * list FormDataItem))
    (params : URLSearchParams.t) :
  appendFormData formData params = (params ++ formPairs formData)%list.
Proof.
  unfold appendFormData, formPairs. revert params.
  induction formData as [| field formData IH]; intros params; simpl.
  - symmetry. apply app_nil_r.
  - rewrite IH, appendValues, <- app_assoc. reflexivity.
Qed.

Lemma percentEncode_chars (c : ascii) :
  forallb urlencodedChar (list_ascii_of_string (URLSearchParams.percentEncode c))
  = true.
Proof.
  destruct c as [[] [] [] [] [] [] [] []]; vm_compute; reflexivity.
Qed.

Lemma forallb_append (f : ascii → bool) (s1 s2 : string) :
  forallb f (list_ascii_of_string (s1 +:+ s2))
  = forallb f (list_ascii_of_string s1) && forallb f (list_ascii_of_string s2).
Proof.
  induction s1 as [| c s1 IH]; [reflexivity |].
  change (f c && forallb f (list_ascii_of_string (s1 +:+ s2))
          = f c && forallb f (list_ascii_of_string s1)
            && forallb f (list_ascii_of_string s2)).
  rewrite IH. apply andb_assoc.
Qed.

Lemma serializeString_chars (s : string) :
  forallb urlencodedChar (list_ascii_of_string (URLSearchParams.serializeString s))
  = true.
Proof.
  induction s as [| c s IH]; [reflexivity |].
  cbn [URLSearchParams.serializeString].
  rewrite forallb_append, IH, andb_true_r.
  destruct (Ascii.eqb c " "); [reflexivity |].
  destruct (URLSearchParams.unreserved c) eqn:Hc.
  - cbn [list_ascii_of_string forallb]. unfold urlencodedChar. rewrite Hc.
    reflexivity.
  - apply percentEncode_chars.
Qed.


End Properties.

(* ===================================================================== *)
(** * Further properties: the replay, the store, the pipeline *)
(* ===================================================================== *)

Section Pipeline.
Context {env : Env}.

Ltac js_step :=
  repeat progress
    (unfold mbind, mret, JS_bind, JS_ret, throw, getStore, setStore, deref;
     cbn [fst snd store activeRules calls]).

(** ** How the host calls run *)

Lemma updateSessionRules_accepted (options : UpdateRuleOptions.t)
    (table : list Rule.t) (w : World) :
  applyUpdate options (activeRules w) = Some table →
  updateSessionRules options w
  = (Normal tt,
     mkWorld (store w) table (calls w ++ [UpdateSessionRules options])).
Proof.
  intros Happly. unfold updateSessionRules, record.
  cbn [store activeRules calls]. rewrite Happly. reflexivity.
Qed.

Lemma updateSessionRules_rejected (options : UpdateRuleOptions.t) (w : World) :
  applyUpdate options (activeRules w) = None →
  updateSessionRules options w
  = (Throw (Rejected (UpdateSessionRules options)),
     record (UpdateSessionRules options) w).
Proof.
  intros Happly. unfold updateSessionRules, record.
  cbn [store activeRules calls]. rewrite Happly. reflexivity.
Qed.

Lemma hostCall_run (call : HostCall) (w : World) :
  hostCall call w
  = (if hostFails call then Throw (Rejected call) else Normal tt, record call w).
Proof. unfold hostCall. destruct (hostFails call); reflexivity. Qed.

(** ** The [execute] branch after the rule update *)

Lemma modifiedHeaders_no_body (data : BrowseRequest.t) (w : World) :
  includes BodyAvailableMethods (BrowseRequest.method data) = false →
  modifiedHeaders data w = (Normal (BrowseRequest.headers data), w).
Proof. intros Hmethod. unfold modifiedHeaders. rewrite Hmethod. reflexivity. Qed.

(** X1. A rule the host finds invalid ends the [execute] at the rule update:
    the update is the only call made, the table is the one from before (the
    tab keeps the rule it had), and nothing is injected, sent or navigated. *)
Theorem execute_stops_on_rejected_rule (tabId : Z) (data : BrowseRequest.t)
    (headers : list Header.t) (w : World) :
  modifiedHeaders data w = (Normal headers, w) →
  sessionRules headers ≠ [] →
  validRule (sessionRule tabId (sessionRules headers)) = false →
  let update :=
    UpdateSessionRules
      (UpdateRuleOptions.mk [tabId]
         (Some [sessionRule tabId (sessionRules headers)])) in
  handleMessage (BackgroundExecuteMessage tabId data) w
  = (Throw (Rejected update),
     mkWorld (store w) (activeRules w) (calls w ++ [update])).
Proof.
  intros Hheaders Hdirectives Hinvalid update. subst update.
  rewrite (handleMessage_execute _ _ _ _ Hheaders).
  destruct (sessionRules headers) as [| d directives] eqn:Hrules;
    [contradiction Hdirectives; reflexivity |].
  rewrite updateRuleOptions_cons.
  unfold mbind, JS_bind.
  rewrite updateSessionRules_rejected; [reflexivity |].
  rewrite applyUpdate_replace by reflexivity.
  rewrite Hinvalid. reflexivity.
Qed.

Lemma execute_body_run (tabId : Z) (data : BrowseRequest.t)
    (headers : list Header.t) (table : list Rule.t) (w : World) :
  includes BodyAvailableMethods (BrowseRequest.method data) = true →
  modifiedHeaders data w = (Normal headers, w) →
  applyUpdate (updateRuleOptions tabId (sessionRules headers)) (activeRules w)
  = Some table →
  hostFails (ExecuteScript tabId [Some "core/post.js"]) = false →
  hostFails (TabsSendMessage tabId (PageRequest (withHeaders data headers)))
  = false →
  handleMessage (BackgroundExecuteMessage tabId data) w
  = match pageReply tabId (PageRequest (withHeaders data headers)) with
    | Some error =>
        s ← getStore;
        connection ← deref (tabStore.getConnection s tabId) "postMessage";
        postMessage connection (DevtoolsErrorMessage error)
    | None => mret tt
    end
      (mkWorld (store w) table
         (calls w
          ++ [UpdateSessionRules (updateRuleOptions tabId (sessionRules headers));
              ExecuteScript tabId [Some "core/post.js"];
              TabsSendMessage tabId (PageRequest (withHeaders data headers))])).
Proof.
  intros Hmethod Hheaders Happly Hinject Hsubmit.
  rewrite (handleMessage_execute _ _ _ _ Hheaders).
  unfold mbind at 1. unfold JS_bind at 1.
  rewrite (updateSessionRules_accepted _ _ _ Happly).
  unfold replay. cbn [withHeaders BrowseRequest.method]. rewrite Hmethod.
  unfold executeScript, sendMessage.
  unfold mbind at 1. unfold JS_bind at 1. rewrite hostCall_run, Hinject.
  unfold mbind at 1. unfold JS_bind at 1.
  unfold mbind at 1. unfold JS_bind at 1.
  change (BrowseRequest.mk (BrowseRequest.url data) (BrowseRequest.method data)
            headers (BrowseRequest.body data))
    with (withHeaders data headers).
  rewrite hostCall_run, Hsubmit.
  unfold record. cbn [store activeRules calls]. rewrite <- !app_assoc.
  reflexivity.
Qed.

(** X2. An [execute] whose method carries a body, once the host has accepted
    the rule update and the two page calls: the script core/post.js is
    injected, then the request is sent to the page, with the content-type
    edit among its headers when one was pushed.  A [null] answer ends the
    branch; an error string is posted to the tab's peer as an error message,
    and the branch throws if there is no peer.  The rule table is the
    updated one in every case. *)
Theorem execute_submits_body (tabId : Z) (data : BrowseRequest.t)
    (headers : list Header.t) (table : list Rule.t) (w : World) :
  let options := updateRuleOptions tabId (sessionRules headers) in
  let sent :=
    BrowseRequest.mk (BrowseRequest.url data) (BrowseRequest.method data)
      headers (BrowseRequest.body data) in
  let inject := ExecuteScript tabId [Some "core/post.js"] in
  let submit := TabsSendMessage tabId (PageRequest sent) in
  let after :=
    mkWorld (store w) table
      (calls w ++ [UpdateSessionRules options; inject; submit]) in
  includes BodyAvailableMethods (BrowseRequest.method data) = true →
  modifiedHeaders data w = (Normal headers, w) →
  applyUpdate options (activeRules w) = Some table →
  hostFails inject = false →
  hostFails submit = false →
  match pageReply tabId (PageRequest sent) with
  | None =>
      handleMessage (BackgroundExecuteMessage tabId data) w = (Normal tt, after)
  | Some error =>
      match tabStore.getConnection (store w) tabId with
      | Some connection =>
          let post := PostMessage connection (DevtoolsErrorMessage error) in
          handleMessage (BackgroundExecuteMessage tabId data) w
          = (if hostFails post then Throw (Rejected post) else Normal tt,
             mkWorld (store w) table (calls after ++ [post]))
      | None =>
          handleMessage (BackgroundExecuteMessage tabId data) w
          = (Throw (TypeError "postMessage"), after)
      end
  end.
Proof.
  intros options sent inject submit after Hmethod Hheaders Happly Hinject Hsubmit.
  rewrite (execute_body_run _ _ _ _ _ Hmethod Hheaders Happly Hinject Hsubmit).
  change (withHeaders data headers) with sent.
  destruct (pageReply tabId (PageRequest sent)) as [error |]; [| reflexivity].
  js_step.
  destruct (tabStore.getConnection (store w) tabId) as [connection |];
    [| reflexivity].
  js_step. unfold postMessage. rewrite hostCall_run. reflexivity.
Qed.

(** X3. When the injection of core/post.js fails, the request is not sent to the
    page; the rule update that came before is not undone. *)
Theorem execute_failed_injection_keeps_rule (tabId : Z) (data : BrowseRequest.t)
    (headers : list Header.t) (table : list Rule.t) (w : World) :
  let options := updateRuleOptions tabId (sessionRules headers) in
  let inject := ExecuteScript tabId [Some "core/post.js"] in
  includes BodyAvailableMethods (BrowseRequest.method data) = true →
  modifiedHeaders data w = (Normal headers, w) →
  applyUpdate options (activeRules w) = Some table →
  hostFails inject = true →
  handleMessage (BackgroundExecuteMessage tabId data) w
  = (Throw (Rejected inject),
     mkWorld (store w) table (calls w ++ [UpdateSessionRules options; inject])).
Proof.
  intros options inject. subst options inject.
  intros Hmethod Hheaders Happly Hinject.
  rewrite (handleMessage_execute _ _ _ _ Hheaders).
  unfold mbind at 1. unfold JS_bind at 1.
  rewrite (updateSessionRules_accepted _ _ _ Happly).
  unfold replay, withHeaders. cbn [BrowseRequest.method]. rewrite Hmethod.
  unfold executeScript.
  unfold mbind at 1. unfold JS_bind at 1. rewrite hostCall_run, Hinject.
  unfold record. cbn [store activeRules calls]. rewrite <- app_assoc.
  reflexivity.
Qed.

(** X4. An [execute] whose method carries no body never looks at the enctype:
    it cannot fail for an unsupported one, pushes no header edit, and after
    the rule update its only call is the navigation of the tab to the edited
    URL; no script is injected and nothing is sent to the page or to a
    peer. *)
Theorem execute_navigates (tabId : Z) (data : BrowseRequest.t)
    (table : list Rule.t) (w : World) :
  let options := updateRuleOptions tabId (sessionRules (BrowseRequest.headers data)) in
  let navigate := TabsUpdate tabId (BrowseRequest.url data) in
  includes BodyAvailableMethods (BrowseRequest.method data) = false →
  applyUpdate options (activeRules w) = Some table →
  handleMessage (BackgroundExecuteMessage tabId data) w
  = (if hostFails navigate then Throw (Rejected navigate) else Normal tt,
     mkWorld (store w) table
       (calls w ++ [UpdateSessionRules options; navigate])).
Proof.
  intros options navigate. subst options navigate. intros Hmethod Happly.
  rewrite (handleMessage_execute _ _ _ _ (modifiedHeaders_no_body _ _ Hmethod)).
  unfold mbind at 1. unfold JS_bind at 1.
  rewrite (updateSessionRules_accepted _ _ _ Happly).
  unfold replay, withHeaders. cbn [BrowseRequest.method BrowseRequest.url].
  rewrite Hmethod. unfold tabsUpdate. rewrite hostCall_run.
  unfold record. cbn [store activeRules calls]. rewrite <- app_assoc.
  reflexivity.
Qed.

(** ** The [test] branch *)

(** X5. A [test] message forwards its payload to the page, after injecting the
    payload's script when the action is "start"; a failed injection ends the
    branch before the payload is forwarded.  The page's answer is ignored,
    and the Session Store and the rule table are never touched. *)
Theorem test_message_forwards_payload (tabId : Z) (data : TestData.t) (w : World) :
  let inject := ExecuteScript tabId [TestData.script data] in
  let forward := TabsSendMessage tabId (PageTest data) in
  let outcome (call : HostCall) : Completion unit :=
    if hostFails call then Throw (Rejected call) else Normal tt in
  (TestData.action data = "start" → hostFails inject = true →
   handleMessage (BackgroundTestMessage tabId data) w
   = (Throw (Rejected inject),
      mkWorld (store w) (activeRules w) (calls w ++ [inject])))
  ∧ (TestData.action data = "start" → hostFails inject = false →
     handleMessage (BackgroundTestMessage tabId data) w
     = (outcome forward,
        mkWorld (store w) (activeRules w) (calls w ++ [inject; forward])))
  ∧ (TestData.action data ≠ "start" →
     handleMessage (BackgroundTestMessage tabId data) w
     = (outcome forward,
        mkWorld (store w) (activeRules w) (calls w ++ [forward]))).
Proof.
  intros inject forward outcome. subst inject forward outcome.
  unfold handleMessage, executeScript, sendMessage.
  split; [| split].
  - intros Hstart Hfails. apply String.eqb_eq in Hstart. rewrite Hstart.
    unfold mbind at 1. unfold JS_bind at 1. rewrite hostCall_run, Hfails.
    reflexivity.
  - intros Hstart Hok. apply String.eqb_eq in Hstart. rewrite Hstart.
    unfold mbind at 1. unfold JS_bind at 1. rewrite hostCall_run, Hok.
    unfold mbind at 1. unfold JS_bind at 1.
    unfold mbind at 1. unfold JS_bind at 1. rewrite hostCall_run.
    unfold record. cbn [store activeRules calls]. rewrite <- app_assoc.
    destruct (hostFails (TabsSendMessage tabId (PageTest data))); reflexivity.
  - intros Hother. apply String.eqb_neq in Hother. rewrite Hother.
    js_step. rewrite hostCall_run.
    destruct (hostFails (TabsSendMessage tabId (PageTest data))); reflexivity.
Qed.

(** ** The Session Store under the control channel *)

Lemma quiet_store {A : Type} (m : JS A) (w : World) :
  quiet m → store (m w).2 = store w ∧ activeRules (m w).2 = activeRules w.
Proof.
  intros Hquiet. destruct (Hquiet w) as [rest [Hw _]]. rewrite Hw.
  split; reflexivity.
Qed.

Lemma quiet_load (tabId : Z) : quiet (handleMessage (BackgroundLoadMessage tabId)).
Proof.
  unfold handleMessage.
  apply quiet_bind; [apply quiet_getStore |]. intros s.
  apply quiet_bind; [apply quiet_deref |]. intros connection.
  apply quiet_hostCall. discriminate.
Qed.

Lemma quiet_test (tabId : Z) (data : TestData.t) :
  quiet (handleMessage (BackgroundTestMessage tabId data)).
Proof.
  unfold handleMessage.
  apply quiet_bind.
  - destruct (String.eqb _ _); [apply quiet_hostCall; discriminate | apply quiet_ret].
  - intros _. apply quiet_bind; [apply quiet_sendMessage |].
    intros _. apply quiet_ret.
Qed.

(** [handleMessage] reads the Session Store and never writes it. *)
Lemma handleMessage_store (message : BackgroundFunctionMessage) (w : World) :
  store (handleMessage message w).2 = store w.
Proof.
  destruct message as [tabId | tabId data | tabId data].
  - apply quiet_store, quiet_load.
  - destruct (modifiedHeaders data w) as [[headers | e] w1] eqn:Hheaders.
    + pose proof (modifiedHeaders_world data w) as Hw.
      rewrite Hheaders in Hw. simpl in Hw. subst w1.
      rewrite (handleMessage_execute _ _ _ _ Hheaders).
      apply (update_then_replay tabId (withHeaders data headers)
               (updateRuleOptions tabId (sessionRules headers)) w).
    + pose proof (modifiedHeaders_world data w) as Hw.
      rewrite Hheaders in Hw. simpl in Hw. subst w1.
      unfold handleMessage. unfold mbind at 1. unfold JS_bind at 1.
      rewrite Hheaders. reflexivity.
  - apply quiet_store, quiet_test.
Qed.

(** The rule table changes under [load] and [test] messages never. *)
Lemma handleMessage_rules (message : BackgroundFunctionMessage) (w : World) :
  isExecuteMessage message = false →
  activeRules (handleMessage message w).2 = activeRules w.
Proof.
  destruct message as [tabId | tabId data | tabId data]; intros Hkind.
  - apply quiet_store, quiet_load.
  - discriminate Hkind.
  - apply quiet_store, quiet_test.
Qed.

Lemma control_message_store (devToolsConnection : Port)
    (message : BackgroundFunctionMessage) (w : World) :
  store (devToolsListener devToolsConnection message w).2
  = tabStore.updateConnection (store w) (messageTabId message) devToolsConnection
  ∧ ∀ tabId,
      tabStore.getBrowseRequest
        (store (devToolsListener devToolsConnection message w).2) tabId
      = tabStore.getBrowseRequest (store w) tabId.
Proof.
  unfold devToolsListener.
  set (w1 := mkWorld _ (activeRules w) (calls w)).
  pose proof (handleMessage_store message w1) as Hstore.
  destruct (handleMessage message w1) as [c w2]. cbn [snd] in *.
  rewrite Hstore. split; reflexivity.
Qed.

(** X6. Every message that arrives on a connection makes that connection the
    peer of the message's tab, in place of the peer the tab had; this is
    all that happens to the Session Store, whatever becomes of the message:
    the snapshots and the peers of the other tabs are as before, and the
    listener itself completes normally. *)
Theorem control_message_attaches_peer (devToolsConnection : Port)
    (message : BackgroundFunctionMessage) (w : World) :
  let r := devToolsListener devToolsConnection message w in
  let tabId := messageTabId message in
  (∃ c, r.1 = Normal c)
  ∧ tabStore.getConnection (store r.2) tabId = Some devToolsConnection
  ∧ (∀ other, other ≠ tabId →
       tabStore.getConnection (store r.2) other
       = tabStore.getConnection (store w) other)
  ∧ (∀ any,
       tabStore.getBrowseRequest (store r.2) any
       = tabStore.getBrowseRequest (store w) any).
Proof.
  intros r tabId. subst r tabId. unfold devToolsListener.
  set (w1 := mkWorld _ (activeRules w) (calls w)).
  pose proof (handleMessage_store message w1) as Hstore.
  destruct (handleMessage message w1) as [c w2]. simpl in *.
  rewrite Hstore. unfold w1. simpl.
  split; [exists c; reflexivity |].
  unfold tabStore.getConnection, tabStore.getBrowseRequest,
    tabStore.updateConnection. simpl.
  split; [apply lookup_insert_eq |].
  split; [| reflexivity].
  intros other Hother. apply lookup_insert_ne. congruence.
Qed.

(** ** Capture and encoding resolution *)

Lemma onBeforeSendHeaders_stored (details : OnBeforeSendHeadersDetails.t)
    (contentTypeHeader : HttpHeader.t) (request : BrowseRequest.t) (w : World) :
  findContentTypeHeader details = Some contentTypeHeader →
  tabStore.getBrowseRequest (store w) (OnBeforeSendHeadersDetails.tabId details)
  = Some request →
  onBeforeSendHeaders details w
  = (Normal tt,
     mkWorld
       (tabStore.updateBrowseRequest (store w)
          (OnBeforeSendHeadersDetails.tabId details)
          (withEnctype request
             (BodyProcessor.getName
                (default (BodyProcessors.getDefaultProcessor bodyProcessors)
                   (BodyProcessors.findByContentType bodyProcessors
                      (default "" (HttpHeader.value contentTypeHeader)))))))
       (activeRules w) (calls w)).
Proof.
  intros Hheader Hrequest. unfold onBeforeSendHeaders. rewrite Hheader.
  js_step. rewrite Hrequest. reflexivity.
Qed.

(** X7. A capture never fails and never talks to the host.  It replaces the
    snapshot of its tab by the one built from the event: its URL, its
    method in upper case, no header edits, the default processor's name as
    enctype and the reconstructed body.  The new snapshot owes nothing to
    the one stored before, so that of two captures for one tab only the
    second one counts; the snapshots of the other tabs, all the peers and
    the rule table are as before. *)
Theorem capture_overwrites_snapshot (first details : OnBeforeRequestDetails.t)
    (w : World) :
  let r := onBeforeRequest details w in
  let tabId := OnBeforeRequestDetails.tabId details in
  r.1 = Normal tt
  ∧ tabStore.getBrowseRequest (store r.2) tabId
    = Some (BrowseRequest.mk (OnBeforeRequestDetails.url details)
              (toUpperCase (OnBeforeRequestDetails.method details)) []
              (Body.mk (BodyProcessors.getDefaultProcessorName bodyProcessors)
                 (bodyContent (OnBeforeRequestDetails.requestBody details))))
  ∧ activeRules r.2 = activeRules w
  ∧ calls r.2 = calls w
  ∧ (∀ any,
       tabStore.getConnection (store r.2) any
       = tabStore.getConnection (store w) any)
  ∧ (∀ other, other ≠ tabId →
       tabStore.getBrowseRequest (store r.2) other
       = tabStore.getBrowseRequest (store w) other)
  ∧ (OnBeforeRequestDetails.tabId first = tabId →
     onBeforeRequest details (onBeforeRequest first w).2 = r).
Proof.
  intros r tabId. subst r tabId. rewrite !onBeforeRequest_run.
  cbn [fst snd store activeRules calls].
  split; [reflexivity |].
  unfold tabStore.getConnection, tabStore.getBrowseRequest,
    tabStore.updateBrowseRequest.
  cbn [tabStore.requests tabStore.connections].
  split; [apply lookup_insert_eq |].
  split; [reflexivity |]. split; [reflexivity |].
  split; [reflexivity |]. split.
  - intros other Hother. apply lookup_insert_ne. congruence.
  - intros Hsame. rewrite Hsame, insert_insert_eq. reflexivity.
Qed.

(** The world after a capture and the header-send event of the same tab. *)
Lemma capture_then_resolve_run (capture : OnBeforeRequestDetails.t)
    (headers : OnBeforeSendHeadersDetails.t) (w : World) :
  OnBeforeSendHeadersDetails.tabId headers = OnBeforeRequestDetails.tabId capture →
  onBeforeSendHeaders headers (onBeforeRequest capture w).2
  = (Normal tt,
     mkWorld
       (tabStore.updateBrowseRequest (store w)
          (OnBeforeRequestDetails.tabId capture)
          (capturedSnapshot capture headers))
       (activeRules w) (calls w)).
Proof.
  intros Htab. rewrite onBeforeRequest_run. cbn [snd].
  unfold capturedSnapshot, resolvedEnctype.
  destruct (findContentTypeHeader headers) as [contentTypeHeader |] eqn:Hheader.
  - rewrite (onBeforeSendHeaders_stored _ contentTypeHeader
               (BrowseRequest.mk (OnBeforeRequestDetails.url capture)
                  (toUpperCase (OnBeforeRequestDetails.method capture)) []
                  (Body.mk (BodyProcessors.getDefaultProcessorName bodyProcessors)
                     (bodyContent (OnBeforeRequestDetails.requestBody capture))))
               _ Hheader).
    + cbn [store activeRules calls]. rewrite Htab.
      unfold tabStore.updateBrowseRequest, withEnctype.
      cbn [tabStore.requests tabStore.connections BrowseRequest.url
           BrowseRequest.method BrowseRequest.headers BrowseRequest.body
           Body.content].
      rewrite insert_insert_eq. reflexivity.
    + cbn [store]. rewrite Htab.
      unfold tabStore.getBrowseRequest, tabStore.updateBrowseRequest.
      cbn [tabStore.requests]. apply lookup_insert_eq.
  - rewrite (onBeforeSendHeaders_no_content_type _ _ Hheader). reflexivity.
Qed.

(** X8. The header-send event that follows the capture of the same tab never
    faults.  With a content-type header it leaves the captured snapshot with
    the name of the processor found for the header's value, or of the
    default processor when none is found, as enctype; without one the
    snapshot keeps the registry's default name. *)
Theorem resolve_after_capture (capture : OnBeforeRequestDetails.t)
    (headers : OnBeforeSendHeadersDetails.t) (w : World) :
  OnBeforeSendHeadersDetails.tabId headers = OnBeforeRequestDetails.tabId capture →
  let r := onBeforeSendHeaders headers (onBeforeRequest capture w).2 in
  r.1 = Normal tt
  ∧ tabStore.getBrowseRequest (store r.2) (OnBeforeRequestDetails.tabId capture)
    = Some (BrowseRequest.mk (OnBeforeRequestDetails.url capture)
              (toUpperCase (OnBeforeRequestDetails.method capture)) []
              (Body.mk (resolvedEnctype headers)
                 (bodyContent (OnBeforeRequestDetails.requestBody capture))))
  ∧ activeRules r.2 = activeRules w
  ∧ calls r.2 = calls w.
Proof.
  intros Htab r. subst r.
  pose proof (capture_then_resolve_run capture headers w Htab) as Hrun.
  destruct (onBeforeSendHeaders headers (onBeforeRequest capture w).2) as [c w2].
  injection Hrun as -> ->. cbn [fst snd store activeRules calls].
  split; [reflexivity |]. split; [| split; reflexivity].
  unfold tabStore.getBrowseRequest, tabStore.updateBrowseRequest.
  cbn [tabStore.requests]. apply lookup_insert_eq.
Qed.

(** ** The directives and the rule table over time *)

Lemma toModifyHeaderInfo_wellFormed (h : Header.t) :
  retained h = true → wellFormedDirective (toModifyHeaderInfo h).
Proof.
  intros Hh. apply retained_spec in Hh. destruct Hh as [_ Hname].
  unfold wellFormedDirective, toModifyHeaderInfo.
  destruct (negb _ || negb _); simpl; split; eauto.
Qed.

(** X9. The directives of a list of edits are what the host takes: each has a
    header name, and a value exactly when it is a "set".  They come in the
    order of the edits they stem from, one for each enabled edit with a
    name. *)
Theorem sessionRules_wellFormed (headers : list Header.t) :
  Forall wellFormedDirective (sessionRules headers)
  ∧ List.map ModifyHeaderInfo.header (sessionRules headers)
    = List.map Header.name (List.filter retained headers)
  ∧ (List.length (sessionRules headers) ≤ List.length headers)%nat.
Proof.
  unfold sessionRules. split; [| split].
  - induction headers as [| h headers IH]; simpl; [constructor |].
    destruct (retained h) eqn:Hh; simpl; [| exact IH].
    constructor; [apply toModifyHeaderInfo_wellFormed, Hh | exact IH].
  - rewrite List.map_map. apply List.map_ext. intros h.
    unfold toModifyHeaderInfo. destruct (negb _ || negb _); reflexivity.
  - rewrite length_map. apply List.filter_length_le.
Qed.

Lemma scriptRule_sessionRule (tabId : Z) (headers : list Header.t) :
  sessionRules headers ≠ [] →
  scriptRule (sessionRule tabId (sessionRules headers)).
Proof.
  intros Hne. unfold scriptRule, sessionRule. simpl.
  repeat split; try assumption.
  apply sessionRules_wellFormed.
Qed.

Lemma removeRules_Forall (P : Rule.t → Prop) (ids : list Z) (table : list Rule.t) :
  Forall P table → Forall P (removeRules ids table).
Proof.
  unfold removeRules. induction 1 as [| r table Hr Htable IH]; simpl.
  - constructor.
  - destruct (negb _); [constructor |]; assumption.
Qed.

Lemma removeRules_NoDup (ids : list Z) (table : list Rule.t) :
  NoDup (List.map Rule.id table) →
  NoDup (List.map Rule.id (removeRules ids table)).
Proof.
  intros Hnd. exact (sublist_NoDup _ _ Hnd (removeRules_ids_sublist ids table)).
Qed.

Lemma removeRules_sublist (ids : list Z) (table : list Rule.t) :
  sublist (removeRules ids table) table.
Proof.
  unfold removeRules. induction table as [| r table IH]; simpl.
  - constructor.
  - destruct (negb _); [apply sublist_skip | apply sublist_cons]; exact IH.
Qed.

(** The table after an [execute] message. *)
Lemma handleMessage_execute_rules (tabId : Z) (data : BrowseRequest.t) (w : World) :
  activeRules (handleMessage (BackgroundExecuteMessage tabId data) w).2
  = activeRules w
  ∨ ∃ headers,
      activeRules (handleMessage (BackgroundExecuteMessage tabId data) w).2
      = (removeRules [tabId] (activeRules w)
         ++ match sessionRules headers with
            | [] => []
            | _ :: _ => [sessionRule tabId (sessionRules headers)]
            end)%list.
Proof.
  destruct (modifiedHeaders data w) as [[headers | e] w1] eqn:Hheaders;
    pose proof (modifiedHeaders_world data w) as Hw;
    rewrite Hheaders in Hw; simpl in Hw; subst w1.
  - rewrite (handleMessage_execute _ _ _ _ Hheaders).
    destruct (update_then_replay tabId (withHeaders data headers)
                (updateRuleOptions tabId (sessionRules headers)) w)
      as (_ & Hrules & _).
    rewrite Hrules.
    destruct (replaceRule_table tabId (sessionRules headers) (activeRules w))
      as (Hoptions & Haccepted & _).
    rewrite Hoptions.
    destruct (sessionRules headers) as [| d directives] eqn:Hd.
    + right. exists headers. rewrite Hd, Haccepted by (left; reflexivity).
      reflexivity.
    + destruct (validRule (sessionRule tabId (d :: directives))) eqn:Hvalid.
      * right. exists headers. rewrite Hd, Haccepted by (right; exact Hvalid).
        reflexivity.
      * left. rewrite applyUpdate_replace by reflexivity.
        unfold sessionRule in Hvalid. rewrite Hvalid. reflexivity.
  - left. unfold handleMessage. unfold mbind at 1. unfold JS_bind at 1.
    rewrite Hheaders. reflexivity.
Qed.

(** The table after an event other than an [execute] message: rules are
    removed at most. *)
Lemma dispatch_rules_sublist (event : Event) (w : World) :
  isExecute event = false →
  sublist (activeRules (dispatch event w)) (activeRules w).
Proof.
  destruct event as [port message | details | details | event tabId | tabId];
    intros Hkind; unfold dispatch.
  - unfold devToolsListener.
    set (w1 := mkWorld _ (activeRules w) (calls w)).
    pose proof (handleMessage_rules message w1 Hkind) as Hrules.
    destruct (handleMessage message w1) as [c w2]. simpl in *.
    rewrite Hrules. reflexivity.
  - rewrite onBeforeRequest_run. reflexivity.
  - unfold onBeforeSendHeaders.
    destruct (findContentTypeHeader details); [| reflexivity].
    js_step.
    destruct (tabStore.getBrowseRequest _ _); reflexivity.
  - rewrite onTerminalEvent_run, handleResponseCompleted_run. simpl.
    apply removeRules_sublist.
  - reflexivity.
Qed.

Lemma dispatch_tableInvariant (event : Event) (w : World) :
  tableInvariant (activeRules w) → tableInvariant (activeRules (dispatch event w)).
Proof.
  intros Hinv.
  destruct (isExecute event) eqn:Hkind.
  - destruct event as [port [tabId | tabId data | tabId data] | | | |];
      try discriminate Hkind.
    unfold dispatch, devToolsListener.
    set (w1 := mkWorld _ (activeRules w) (calls w)).
    change (activeRules w) with (activeRules w1) in Hinv.
    pose proof (handleMessage_execute_rules tabId data w1) as Hrules.
    destruct (handleMessage (BackgroundExecuteMessage tabId data) w1) as [c w2].
    simpl in *.
    destruct Hrules as [-> | [headers ->]]; [exact Hinv |].
    destruct Hinv as [Hnd Hall]. split.
    + rewrite List.map_app. apply NoDup_app.
      split; [apply removeRules_NoDup, Hnd |]. split.
      * intros i Hkept Hadded.
        destruct (sessionRules headers); simpl in Hadded.
        -- apply elem_of_nil in Hadded. exact Hadded.
        -- apply list_elem_of_singleton in Hadded. subst i.
           exact (removeRules_not_in tabId _ Hkept).
      * destruct (sessionRules headers); simpl;
          [apply NoDup_nil_2 | apply NoDup_singleton].
    + apply Forall_app. split; [apply removeRules_Forall, Hall |].
      destruct (sessionRules headers) as [| d directives] eqn:Hd;
        [constructor |].
      constructor; [| constructor].
      rewrite <- Hd. apply scriptRule_sessionRule. rewrite Hd. discriminate.
  - pose proof (dispatch_rules_sublist event w Hkind) as Hsub.
    destruct Hinv as [Hnd Hall]. split.
    + eapply sublist_NoDup; [exact Hnd |].
      exact (fmap_sublist Rule.id _ _ Hsub).
    + rewrite Forall_forall in Hall |- *.
      intros r Hr. apply Hall. eapply elem_of_sublist; eassumption.
Qed.

(** X10. Whatever events follow one another, the rules in the host's table stay
    the script's own: their ids are distinct, so no tab has two rules, and
    each rule modifies headers of main-frame requests of the one tab whose
    id it bears, with at least one directive, all of them well formed. *)
Theorem run_keeps_table_invariant (events : list Event) (w : World) :
  tableInvariant (activeRules w) → tableInvariant (activeRules (run events w)).
Proof.
  unfold run. revert w.
  induction events as [| event events IH]; intros w Hinv; simpl.
  - exact Hinv.
  - apply IH, dispatch_tableInvariant, Hinv.
Qed.

(** X11. Only an [execute] message adds a rule: over events without one, the
    rules in the table are among those it started with, in their order. *)
Theorem run_without_execute_adds_no_rule (events : list Event) (w : World) :
  forallb (λ event, negb (isExecute event)) events = true →
  sublist (activeRules (run events w)) (activeRules w).
Proof.
  unfold run. revert w.
  induction events as [| event events IH]; intros w Hnone; simpl.
  - reflexivity.
  - simpl in Hnone. apply andb_true_iff in Hnone. destruct Hnone as [Hevent Hrest].
    apply negb_true_iff in Hevent.
    etransitivity; [apply IH, Hrest | apply dispatch_rules_sublist, Hevent].
Qed.

(** ** From the capture to the peer *)

Lemma devToolsListener_load_run (devToolsConnection : Port) (tabId : Z) (w : World) :
  (devToolsListener devToolsConnection (BackgroundLoadMessage tabId) w).2
  = mkWorld (tabStore.updateConnection (store w) tabId devToolsConnection)
      (activeRules w)
      (calls w
       ++ [PostMessage devToolsConnection
             (DevtoolsLoadMessage (tabStore.getBrowseRequest (store w) tabId))]).
Proof.
  unfold devToolsListener, handleMessage. js_step.
  unfold tabStore.getConnection, tabStore.updateConnection.
  cbn [tabStore.connections messageTabId]. rewrite lookup_insert_eq.
  unfold postMessage. rewrite hostCall_run. reflexivity.
Qed.

(** X12. A request that is captured, whose headers are then sent, and that is
    then asked for by a [load] message on a connection: the one call made
    on the host is the post, to that connection, of a load message with the
    captured URL, the upper-cased method, no header edits, the reconstructed
    body and the resolved enctype.  This holds in any world: what was stored
    or attached for the tab before does not matter. *)
Theorem captured_snapshot_reaches_peer (capture : OnBeforeRequestDetails.t)
    (headers : OnBeforeSendHeadersDetails.t) (devToolsConnection : Port)
    (w : World) :
  OnBeforeSendHeadersDetails.tabId headers = OnBeforeRequestDetails.tabId capture →
  let tabId := OnBeforeRequestDetails.tabId capture in
  let w' :=
    run [BeforeRequest capture; BeforeSendHeaders headers;
         ControlMessage devToolsConnection (BackgroundLoadMessage tabId)] w in
  calls w'
  = (calls w
     ++ [PostMessage devToolsConnection
           (DevtoolsLoadMessage
              (Some (BrowseRequest.mk (OnBeforeRequestDetails.url capture)
                       (toUpperCase (OnBeforeRequestDetails.method capture)) []
                       (Body.mk (resolvedEnctype headers)
                          (bodyContent
                             (OnBeforeRequestDetails.requestBody capture))))))])%list
  ∧ activeRules w' = activeRules w.
Proof.
  intros Htab tabId w'. subst tabId w'.
  unfold run. cbn [fold_left dispatch].
  rewrite (capture_then_resolve_run capture headers w Htab). cbn [snd].
  rewrite devToolsListener_load_run. cbn [store activeRules calls].
  split; [| reflexivity].
  unfold tabStore.getBrowseRequest, tabStore.updateBrowseRequest.
  cbn [tabStore.requests]. rewrite lookup_insert_eq. reflexivity.
Qed.

(** ** The page's messages and the keyboard commands *)

Lemma truthyId_Some (id : option Z) (n : Z) :
  truthyId id = Some n ↔ id = Some n ∧ n ≠ 0.
Proof.
  unfold truthyId. destruct id as [m |]; [| split; [discriminate | intros [H _]; discriminate H]].
  destruct (m =? 0) eqn:Hm.
  - apply Z.eqb_eq in Hm. subst m.
    split; [discriminate |]. intros [[= <-] Hn]. contradiction Hn. reflexivity.
  - apply Z.eqb_neq in Hm. split.
    + intros [= <-]. auto.
    + intros [[= <-] _]. reflexivity.
Qed.

Lemma truthyId_None (id : option Z) :
  truthyId id = None ↔ id = None ∨ id = Some 0.
Proof.
  unfold truthyId. destruct id as [m |]; [| split; auto].
  destruct (m =? 0) eqn:Hm.
  - apply Z.eqb_eq in Hm. subst m. split; auto.
  - apply Z.eqb_neq in Hm. split; [discriminate |].
    intros [H | [= H]]; [discriminate H | contradiction].
Qed.

Lemma postToPeer_outcome {A : Type} (postFails : Port → PeerMessage A → bool)
    (connection port : Port) (message m : PeerMessage A) :
  (postToPeer postFails connection message = Posted port m ↔
   port = connection ∧ m = message ∧ postFails port m = false)
  ∧ (postToPeer postFails connection message = PostFailed port m ↔
     port = connection ∧ m = message ∧ postFails port m = true)
  ∧ postToPeer postFails connection message ≠ Ignored
  ∧ ∀ e, postToPeer postFails connection message ≠ Faulted e.
Proof.
  unfold postToPeer.
  destruct (postFails connection message) eqn:Hpost;
    (split; [| split; [| split; [discriminate | discriminate]]]).
  - split; [discriminate | intros (-> & -> & H); congruence].
  - split; [intros [= <- <-]; auto | intros (-> & -> & _); reflexivity].
  - split; [intros [= <- <-]; auto | intros (-> & -> & _); reflexivity].
  - split; [discriminate | intros (-> & -> & H); congruence].
Qed.

(** X13. A message of the page is posted, as a test message, on the peer of
    the sender's tab and on no other.  It is ignored when the sender has no
    tab or its tab has no id or the id 0, even if a peer is attached for
    tab 0.  The listener throws in two cases: the sender's tab has an id
    and no peer, or the post on the peer throws. *)
Theorem page_message_goes_to_tab_peer {A : Type}
    (postFails : Port → PeerMessage A → bool) (message : A)
    (sender : MessageSender.t) (s : tabStore.t) :
  let id := MessageSender.tab sender ≫= Tab.id in
  let outcome := onMessage postFails message sender s in
  (∀ port m,
     outcome = Posted port m ↔
     ∃ n, id = Some n ∧ n ≠ 0 ∧ tabStore.getConnection s n = Some port
          ∧ m = DevtoolsTestMessage message ∧ postFails port m = false)
  ∧ (∀ port m,
       outcome = PostFailed port m ↔
       ∃ n, id = Some n ∧ n ≠ 0 ∧ tabStore.getConnection s n = Some port
            ∧ m = DevtoolsTestMessage message ∧ postFails port m = true)
  ∧ (outcome = Ignored ↔ id = None ∨ id = Some 0)
  ∧ (∀ e,
       outcome = Faulted e ↔
       e = TypeError "postMessage"
       ∧ ∃ n, id = Some n ∧ n ≠ 0 ∧ tabStore.getConnection s n = None).
Proof.
  intros id outcome. subst id outcome. unfold onMessage.
  destruct (truthyId (MessageSender.tab sender ≫= Tab.id)) as [n |] eqn:Hid.
  - apply truthyId_Some in Hid. destruct Hid as [Hid Hn]. rewrite Hid.
    destruct (tabStore.getConnection s n) as [connection |] eqn:Hconnection.
    + split; [| split; [| split]].
      * intros port m.
        rewrite (proj1 (postToPeer_outcome postFails connection port _ m)).
        split.
        -- intros (-> & -> & Hpost). exists n. auto.
        -- intros (n' & [= <-] & _ & Hport & -> & Hpost).
           rewrite Hconnection in Hport. injection Hport as ->. auto.
      * intros port m.
        rewrite (proj1 (proj2 (postToPeer_outcome postFails connection port _ m))).
        split.
        -- intros (-> & -> & Hpost). exists n. auto.
        -- intros (n' & [= <-] & _ & Hport & -> & Hpost).
           rewrite Hconnection in Hport. injection Hport as ->. auto.
      * split.
        -- intros Hignored.
           exfalso. exact (proj1 (proj2 (proj2 (postToPeer_outcome postFails
                                    connection connection _ (DevtoolsTestMessage message))))
                             Hignored).
        -- intros [H | [= H]]; [discriminate H | congruence].
      * intros e. split.
        -- intros Hfault.
           exfalso. exact (proj2 (proj2 (proj2 (postToPeer_outcome postFails
                                    connection connection _ (DevtoolsTestMessage message))))
                             e Hfault).
        -- intros (_ & n' & [= <-] & _ & Hnone). congruence.
    + split; [| split; [| split]].
      * intros port m. split; [discriminate |].
        intros (n' & [= <-] & _ & Hport & _). congruence.
      * intros port m. split; [discriminate |].
        intros (n' & [= <-] & _ & Hport & _). congruence.
      * split; [discriminate |]. intros [H | [= H]]; [discriminate H | congruence].
      * intros e. split.
        -- intros [= <-]. split; [reflexivity |]. exists n. auto.
        -- intros [-> _]. reflexivity.
  - apply truthyId_None in Hid.
    split; [| split; [| split]].
    + intros port m. split; [discriminate |].
      intros (n & Hn & Hne & _).
      destruct Hid as [H | H]; rewrite H in Hn; congruence.
    + intros port m. split; [discriminate |].
      intros (n & Hn & Hne & _).
      destruct Hid as [H | H]; rewrite H in Hn; congruence.
    + split; [intros _; exact Hid | reflexivity].
    + intros e. split; [discriminate |].
      intros (_ & n & Hn & Hne & _).
      destruct Hid as [H | H]; rewrite H in Hn; congruence.
Qed.

(** X14. A keyboard command is posted, as a command message, on the peer of
    the first tab of the query's answer, whatever tabs follow it.  Without
    a peer for that tab, or when the tab has no id or the id 0, the command
    is dropped without an error.  The listener throws in three cases: the
    query fails, the query finds no tab, or the post on the peer throws. *)
Theorem command_goes_to_active_tab_peer {A : Type}
    (postFails : Port → PeerMessage A → bool) (tabs : Completion (list Tab.t))
    (command : string) (s : tabStore.t) :
  let outcome := onCommand postFails tabs command s in
  let first (n : Z) :=
    ∃ tab rest, tabs = Normal (tab :: rest) ∧ Tab.id tab = Some n ∧ n ≠ 0 in
  (∀ port m,
     outcome = Posted port m ↔
     ∃ n, first n ∧ tabStore.getConnection s n = Some port
          ∧ m = DevtoolsCommandMessage command ∧ postFails port m = false)
  ∧ (∀ port m,
       outcome = PostFailed port m ↔
       ∃ n, first n ∧ tabStore.getConnection s n = Some port
            ∧ m = DevtoolsCommandMessage command ∧ postFails port m = true)
  ∧ (outcome = Ignored ↔
     ∃ tab rest,
       tabs = Normal (tab :: rest)
       ∧ (Tab.id tab = None ∨ Tab.id tab = Some 0
          ∨ ∃ n, Tab.id tab = Some n ∧ tabStore.getConnection s n = None))
  ∧ (∀ e,
       outcome = Faulted e ↔
       tabs = Throw e ∨ (tabs = Normal [] ∧ e = TypeError "id")).
Proof.
  intros outcome first. subst outcome first. unfold onCommand.
  destruct tabs as [[| tab rest] | e0].
  - split; [| split; [| split]].
    + intros port m. split; [discriminate |].
      intros (n & (tab & rest & Htabs & _) & _). discriminate Htabs.
    + intros port m. split; [discriminate |].
      intros (n & (tab & rest & Htabs & _) & _). discriminate Htabs.
    + split; [discriminate |]. intros (tab & rest & Htabs & _). discriminate Htabs.
    + intros e. split; [intros [= <-]; auto |].
      intros [H | [_ ->]]; [discriminate H | reflexivity].
  - destruct (truthyId (Tab.id tab)) as [n |] eqn:Hid.
    + apply truthyId_Some in Hid. destruct Hid as [Hid Hn].
      destruct (tabStore.getConnection s n) as [connection |] eqn:Hconnection.
      * split; [| split; [| split]].
        -- intros port m.
           rewrite (proj1 (postToPeer_outcome postFails connection port _ m)).
           split.
           ++ intros (-> & -> & Hpost). exists n.
              split; [exists tab, rest; auto | auto].
           ++ intros (n' & (tab' & rest' & [= <- <-] & Hid' & _) & Hport & -> & Hpost).
              rewrite Hid in Hid'. injection Hid' as <-.
              rewrite Hconnection in Hport. injection Hport as ->. auto.
        -- intros port m.
           rewrite (proj1 (proj2 (postToPeer_outcome postFails connection port _ m))).
           split.
           ++ intros (-> & -> & Hpost). exists n.
              split; [exists tab, rest; auto | auto].
           ++ intros (n' & (tab' & rest' & [= <- <-] & Hid' & _) & Hport & -> & Hpost).
              rewrite Hid in Hid'. injection Hid' as <-.
              rewrite Hconnection in Hport. injection Hport as ->. auto.
        -- split.
           ++ intros Hignored.
              exfalso. exact (proj1 (proj2 (proj2 (postToPeer_outcome postFails
                                       connection connection _
                                       (DevtoolsCommandMessage command))))
                                Hignored).
           ++ intros (tab' & rest' & [= <- <-] & [H | [H | (n' & H & Hnone)]]);
                congruence.
        -- intros e. split.
           ++ intros Hfault.
              exfalso. exact (proj2 (proj2 (proj2 (postToPeer_outcome postFails
                                       connection connection _
                                       (DevtoolsCommandMessage command))))
                                e Hfault).
           ++ intros [H | [H _]]; discriminate H.
      * split; [| split; [| split]].
        -- intros port m. split; [discriminate |].
           intros (n' & (tab' & rest' & [= <- <-] & Hid' & _) & Hport & _).
           congruence.
        -- intros port m. split; [discriminate |].
           intros (n' & (tab' & rest' & [= <- <-] & Hid' & _) & Hport & _).
           congruence.
        -- split; [| reflexivity]. intros _. exists tab, rest.
           split; [reflexivity |]. right. right. exists n. auto.
        -- intros e. split; [discriminate |].
           intros [H | [H _]]; discriminate H.
    + apply truthyId_None in Hid.
      split; [| split; [| split]].
      * intros port m. split; [discriminate |].
        intros (n & (tab' & rest' & [= <- <-] & Hid' & Hne) & _).
        destruct Hid as [H | H]; congruence.
      * intros port m. split; [discriminate |].
        intros (n & (tab' & rest' & [= <- <-] & Hid' & Hne) & _).
        destruct Hid as [H | H]; congruence.
      * split; [| reflexivity]. intros _. exists tab, rest.
        split; [reflexivity |]. destruct Hid as [H | H]; auto.
      * intros e. split; [discriminate |].
        intros [H | [H _]]; discriminate H.
  - split; [| split; [| split]].
    + intros port m. split; [discriminate |].
      intros (n & (tab & rest & Htabs & _) & _). discriminate Htabs.
    + intros port m. split; [discriminate |].
      intros (n & (tab & rest & Htabs & _) & _). discriminate Htabs.
    + split; [discriminate |]. intros (tab & rest & Htabs & _). discriminate Htabs.
    + intros e. split; [intros [= <-]; auto |].
      intros [[= <-] | [H _]]; [reflexivity | discriminate H].
Qed.

(** ** Nothing is lost in the form body *)

Lemma append_assoc (s1 s2 s3 : string) : (s1 +:+ s2) +:+ s3 = s1 +:+ (s2 +:+ s3).
Proof.
  induction s1 as [| c s1 IH]; [reflexivity |].
  change (String c ((s1 +:+ s2) +:+ s3) = String c (s1 +:+ (s2 +:+ s3))).
  f_equal. exact IH.
Qed.

Lemma unescape_percentEncode (c : ascii) (rest : string) :
  unescape (URLSearchParams.percentEncode c +:+ rest) = String c (unescape rest).
Proof.
  unfold URLSearchParams.percentEncode.
  change (unescape
            (String "%"
               (String (URLSearchParams.hexDigit (N_of_ascii c / 16))
                  (String (URLSearchParams.hexDigit (N_of_ascii c mod 16)) rest)))
          = String c (unescape rest)).
  cbn [unescape]. change (Ascii.eqb "%" "+") with false.
  change (Ascii.eqb "%" "%") with true. cbv iota. f_equal.
  destruct c as [[] [] [] [] [] [] [] []]; vm_compute; reflexivity.
Qed.

Lemma unreserved_plain (c : ascii) :
  URLSearchParams.unreserved c = true →
  Ascii.eqb c "+" = false ∧ Ascii.eqb c "%" = false.
Proof.
  destruct c as [[] [] [] [] [] [] [] []]; vm_compute; intros H;
    (discriminate H || (split; reflexivity)).
Qed.

Lemma unescape_serializeString (s rest : string) :
  unescape (URLSearchParams.serializeString s +:+ rest) = s +:+ unescape rest.
Proof.
  induction s as [| c s IH]; [reflexivity |].
  cbn [URLSearchParams.serializeString]. rewrite append_assoc.
  change (String c s +:+ unescape rest) with (String c (s +:+ unescape rest)).
  rewrite <- IH.
  destruct (Ascii.eqb c " ") eqn:Hspace.
  - apply Ascii.eqb_eq in Hspace. subst c. reflexivity.
  - destruct (URLSearchParams.unreserved c) eqn:Hc.
    + destruct (unreserved_plain c Hc) as [Hplus Hpercent].
      change (unescape (String c (URLSearchParams.serializeString s +:+ rest))
              = String c (unescape (URLSearchParams.serializeString s +:+ rest))).
      cbn [unescape]. rewrite Hplus, Hpercent. reflexivity.
    + apply unescape_percentEncode.
Qed.

Lemma serializeString_injective (s1 s2 : string) :
  URLSearchParams.serializeString s1 = URLSearchParams.serializeString s2 →
  s1 = s2.
Proof.
  intros Heq.
  pose proof (unescape_serializeString s1 "") as H1.
  pose proof (unescape_serializeString s2 "") as H2.
  rewrite !append_empty_r in H1, H2. cbn [unescape] in H1, H2.
  congruence.
Qed.

Lemma occurs_append (c : ascii) (s1 s2 : string) :
  occurs c (s1 +:+ s2) = occurs c s1 || occurs c s2.
Proof.
  induction s1 as [| c1 s1 IH]; [reflexivity |].
  change (Ascii.eqb c1 c || occurs c (s1 +:+ s2)
          = Ascii.eqb c1 c || occurs c s1 || occurs c s2).
  rewrite IH. apply orb_assoc.
Qed.

Lemma occurs_absent (c : ascii) (s : string) :
  urlencodedChar c = false →
  forallb urlencodedChar (list_ascii_of_string s) = true →
  occurs c s = false.
Proof.
  intros Hc. induction s as [| c1 s IH]; [reflexivity |].
  cbn [list_ascii_of_string forallb occurs]. intros Hall.
  apply andb_true_iff in Hall. destruct Hall as [Hc1 Hs].
  rewrite (IH Hs), orb_false_r.
  destruct (Ascii.eqb c1 c) eqn:Heq; [| reflexivity].
  apply Ascii.eqb_eq in Heq. congruence.
Qed.

Lemma occurs_serializeString (c : ascii) (s : string) :
  urlencodedChar c = false → occurs c (URLSearchParams.serializeString s) = false.
Proof. intros Hc. apply occurs_absent; [exact Hc | apply serializeString_chars]. Qed.

(** Two strings cut at the first occurrence of a separator agree part by
    part. *)
Lemma cut_unique (sep : ascii) (a1 a2 r1 r2 : string) :
  occurs sep a1 = false → occurs sep a2 = false →
  a1 +:+ String sep r1 = a2 +:+ String sep r2 →
  a1 = a2 ∧ r1 = r2.
Proof.
  revert a2. induction a1 as [| c1 a1 IH]; intros [| c2 a2] H1 H2 Heq.
  - injection Heq as ->. auto.
  - injection Heq as <- _. cbn [occurs] in H2.
    rewrite Ascii.eqb_refl in H2. discriminate H2.
  - injection Heq as -> _. cbn [occurs] in H1.
    rewrite Ascii.eqb_refl in H1. discriminate H1.
  - injection Heq as -> Heq. cbn [occurs] in H1, H2.
    apply orb_false_iff in H1. apply orb_false_iff in H2.
    destruct (IH a2 (proj2 H1) (proj2 H2) Heq) as [-> ->]. auto.
Qed.

Lemma occurs_serializePair (p : string * string) :
  occurs "&" (URLSearchParams.serializePair p) = false.
Proof.
  unfold URLSearchParams.serializePair.
  rewrite !occurs_append, !occurs_serializeString by reflexivity.
  reflexivity.
Qed.

Lemma serializePair_injective (p1 p2 : string * string) :
  URLSearchParams.serializePair p1 = URLSearchParams.serializePair p2 → p1 = p2.
Proof.
  destruct p1 as [n1 v1], p2 as [n2 v2]. unfold URLSearchParams.serializePair.
  cbn [fst snd]. intros Heq.
  apply (cut_unique "=") in Heq;
    [| apply occurs_serializeString; reflexivity
     | apply occurs_serializeString; reflexivity].
  destruct Heq as [Hn Hv].
  apply serializeString_injective in Hn. apply serializeString_injective in Hv.
  congruence.
Qed.

Lemma toString_cons (p : string * string) (params : URLSearchParams.t) :
  URLSearchParams.toString (p :: params)
  = match params with
    | [] => URLSearchParams.serializePair p
    | _ :: _ =>
        URLSearchParams.serializePair p
        +:+ String "&" (URLSearchParams.toString params)
    end.
Proof. destruct params; reflexivity. Qed.

Lemma occurs_self (c : ascii) (s1 s2 : string) :
  occurs c (s1 +:+ String c s2) = true.
Proof.
  rewrite occurs_append. cbn [occurs]. rewrite Ascii.eqb_refl.
  apply orb_true_iff. right. reflexivity.
Qed.

Lemma occurs_equals_toString (p : string * string) (params : URLSearchParams.t) :
  occurs "=" (URLSearchParams.toString (p :: params)) = true.
Proof.
  assert (Hpair : occurs "=" (URLSearchParams.serializePair p) = true).
  { unfold URLSearchParams.serializePair. rewrite !occurs_append.
    change (occurs "=" "=") with true. rewrite orb_true_l. apply orb_true_r. }
  rewrite toString_cons. destruct params; [exact Hpair |].
  rewrite occurs_append, Hpair. reflexivity.
Qed.

Lemma toString_injective (params1 params2 : URLSearchParams.t) :
  URLSearchParams.toString params1 = URLSearchParams.toString params2 →
  params1 = params2.
Proof.
  revert params2.
  induction params1 as [| p1 params1 IH]; intros [| p2 params2] Heq.
  - reflexivity.
  - exfalso.
    pose proof (occurs_equals_toString p2 params2) as Hpair.
    rewrite <- Heq in Hpair. discriminate Hpair.
  - exfalso.
    pose proof (occurs_equals_toString p1 params1) as Hpair.
    rewrite Heq in Hpair. discriminate Hpair.
  - rewrite !toString_cons in Heq.
    destruct params1 as [| q1 params1], params2 as [| q2 params2].
    + apply serializePair_injective in Heq. congruence.
    + exfalso.
      pose proof (occurs_serializePair p1) as Hnone.
      rewrite Heq, occurs_self in Hnone. discriminate Hnone.
    + exfalso.
      pose proof (occurs_serializePair p2) as Hnone.
      rewrite <- Heq, occurs_self in Hnone. discriminate Hnone.
    + apply (cut_unique "&") in Heq; [| apply occurs_serializePair ..].
      destruct Heq as [Hp Hrest].
      apply serializePair_injective in Hp. apply IH in Hrest. congruence.
Qed.

(** X15. The body reconstructed from form data loses nothing: two forms with the
    same body have the same pairs, names and decoded values, in the same
    order.  In particular a name or a value with [&], [=], [+], [%] or a
    space in it cannot be taken for another. *)
Theorem form_body_determines_pairs
    (formData1 formData2 : list (string * list FormDataItem))
    (raw1 raw2 : option (list UploadData.t)) :
  bodyContent (formBody formData1 raw1) = bodyContent (formBody formData2 raw2) →
  formPairs formData1 = formPairs formData2.
Proof.
  unfold bodyContent, formBody. cbn [RequestBody.formData].
  rewrite !appendFormData_pairs. unfold URLSearchParams.new. cbn [app].
  apply toString_injective.
Qed.

(** ** What the capture prefers *)

(** X16. The body of a capture is empty when the event has no request body, or a
    request body with neither form data nor raw segments.  Form data, even
    empty, goes before raw segments, which are then not looked at; in a raw
    segment a file goes before the bytes, which are then not decoded. *)
Theorem capture_body_precedence
    (formData : list (string * list FormDataItem)) (raw raw' : list UploadData.t)
    (bytes bytes' : option (list byte)) (file : string) (rest : list UploadData.t) :
  bodyContent None = ""
  ∧ bodyContent (Some (RequestBody.mk None None)) = ""
  ∧ bodyContent (Some (RequestBody.mk (Some []) (Some raw))) = ""
  ∧ bodyContent (Some (RequestBody.mk (Some formData) (Some raw)))
    = bodyContent (Some (RequestBody.mk (Some formData) (Some raw')))
  ∧ (file ≠ "" →
     bodyContent (rawBody (UploadData.mk bytes (Some file) :: rest))
     = bodyContent (rawBody (UploadData.mk bytes' (Some file) :: rest))).
Proof.
  split; [reflexivity |]. split; [reflexivity |]. split; [reflexivity |].
  split; [reflexivity |].
  intros Hfile. unfold bodyContent, rawBody.
  cbn [RequestBody.formData RequestBody.raw List.map].
  rewrite !join_cons. f_equal. unfold segmentContent. cbn [UploadData.file].
  destruct file as [| c file]; [contradiction Hfile |]; reflexivity.
Qed.

(** ** From the [execute] to the end of the request *)

Lemma removeRules_app (ids : list Z) (l1 l2 : list Rule.t) :
  removeRules ids (l1 ++ l2) = (removeRules ids l1 ++ removeRules ids l2)%list.
Proof. apply List.filter_app. Qed.

(** X17. An [execute] message for a tab followed by a terminal event of the
    tab's request leaves the table it found, less the rules of the tab:
    whether the message failed, was rejected or went through, the rule it
    may have added does not outlive the request, and the rules of the other
    tabs are the same, in the same order. *)
Theorem execute_then_terminal_restores_table (devToolsConnection : Port)
    (tabId : Z) (data : BrowseRequest.t) (event : TerminalEvent) (w : World) :
  activeRules
    (run [ControlMessage devToolsConnection (BackgroundExecuteMessage tabId data);
          Terminal event tabId] w)
  = removeRules [tabId] (activeRules w).
Proof.
  unfold run. cbn [fold_left dispatch].
  rewrite onTerminalEvent_run, handleResponseCompleted_run. cbn [snd activeRules].
  unfold devToolsListener.
  set (w1 := mkWorld _ (activeRules w) (calls w)).
  pose proof (handleMessage_execute_rules tabId data w1) as Hrules.
  destruct (handleMessage (BackgroundExecuteMessage tabId data) w1) as [c w2].
  cbn [snd] in *.
  destruct Hrules as [-> | [headers ->]]; [reflexivity |].
  rewrite removeRules_app, removeRules_idempotent.
  destruct (sessionRules headers) as [| d directives]; [apply app_nil_r |].
  unfold removeRules at 2, sessionRule.
  cbn [List.filter Rule.id existsb]. rewrite Z.eqb_refl. apply app_nil_r.
Qed.

(** ** The snapshots over time *)

Lemma dispatch_snapshots (event : Event) (w : World) (tabId : Z)
    (request : BrowseRequest.t) :
  tabStore.getBrowseRequest (store (dispatch event w)) tabId = Some request →
  BrowseRequest.headers request = []
  ∨ ∃ request',
      tabStore.getBrowseRequest (store w) tabId = Some request'
      ∧ BrowseRequest.headers request' = BrowseRequest.headers request.
Proof.
  destruct event as [port message | details | details | event tab | tab];
    unfold dispatch.
  - destruct (control_message_store port message w) as [_ Hsnapshots].
    rewrite Hsnapshots. intros Hrequest. right. exists request. auto.
  - rewrite onBeforeRequest_run. cbn [snd store].
    unfold tabStore.getBrowseRequest, tabStore.updateBrowseRequest.
    cbn [tabStore.requests]. intros Hrequest.
    apply lookup_insert_Some in Hrequest.
    destruct Hrequest as [[_ <-] | [_ Hold]]; [left; reflexivity |].
    right. exists request. auto.
  - unfold onBeforeSendHeaders.
    destruct (findContentTypeHeader details) as [contentTypeHeader |];
      [| intros Hrequest; right; exists request; auto].
    js_step.
    destruct (tabStore.getBrowseRequest (store w)
                (OnBeforeSendHeadersDetails.tabId details)) as [stored |] eqn:Hstored;
      [| intros Hrequest; right; exists request; auto].
    js_step. unfold tabStore.getBrowseRequest, tabStore.updateBrowseRequest in *.
    cbn [tabStore.requests]. intros Hrequest.
    apply lookup_insert_Some in Hrequest.
    destruct Hrequest as [[<- <-] | [_ Hold]].
    + right. exists stored. auto.
    + right. exists request. auto.
  - rewrite onTerminalEvent_run, handleResponseCompleted_run. cbn [snd store].
    intros Hrequest. right. exists request. auto.
  - unfold onRemoved. js_step.
    unfold tabStore.getBrowseRequest, tabStore.remove. cbn [tabStore.requests].
    intros Hrequest. apply lookup_delete_Some in Hrequest.
    right. exists request. split; [apply Hrequest | reflexivity].
Qed.

(** X18. The Session Store never holds an edited request.  Starting from a store
    whose snapshots have no header edits (an empty one, say), every snapshot
    stored after any events has none: an [execute] message, with its edits
    and the pushed content-type, leaves the snapshots as captured. *)
Theorem run_snapshots_without_edits (events : list Event) (w : World) :
  (∀ tabId request,
     tabStore.getBrowseRequest (store w) tabId = Some request →
     BrowseRequest.headers request = []) →
  ∀ tabId request,
    tabStore.getBrowseRequest (store (run events w)) tabId = Some request →
    BrowseRequest.headers request = [].
Proof.
  unfold run. revert w.
  induction events as [| event events IH]; intros w Hinv; simpl.
  - exact Hinv.
  - apply IH. intros tabId request Hrequest.
    destruct (dispatch_snapshots event w tabId request Hrequest)
      as [Hnone | (request' & Hold & Hsame)]; [exact Hnone |].
    rewrite <- Hsame. exact (Hinv tabId request' Hold).
Qed.

End Pipeline.

(* ===================================================================== *)
(** * The properties on concrete inputs *)
(* ===================================================================== *)

Lemma C6_unsupported_enctype_witness :
  includes (@BodyAvailableMethods Sample.env)
    (BrowseRequest.method Sample.xmlRequest) = true
  ∧ BodyProcessors.find (@bodyProcessors Sample.env)
      (Body.enctype (BrowseRequest.body Sample.xmlRequest)) = None
  ∧ @handleMessage Sample.env (BackgroundExecuteMessage 7 Sample.xmlRequest)
      Sample.busyWorld
    = (Throw (Error "Unsupported enctype"), Sample.busyWorld)
  ∧ @devToolsListener Sample.env 1%nat
      (BackgroundExecuteMessage 7 Sample.xmlRequest) Sample.busyWorld
    = (Normal (Throw (Error "Unsupported enctype")), Sample.busyWorld).
Proof.
  split; [reflexivity |]. split; [reflexivity |].
  pose proof (@C6_unsupported_enctype Sample.env 1%nat 7 Sample.xmlRequest
                Sample.busyWorld eq_refl eq_refl) as [Hpromise Hcaller].
  split; [exact Hpromise |].
  rewrite Hcaller. reflexivity.
Defined.

(** C6 as the spec has it does not hold: the error is not raised to the
    caller.  On an [execute] message with an enctype that has no processor,
    the listener that calls [handleMessage] completes normally; the error is
    the rejection of a promise nobody awaits. *)
Lemma C6_error_not_raised_counterexample :
  (includes (@BodyAvailableMethods Sample.env)
     (BrowseRequest.method Sample.xmlRequest) = true
   ∧ BodyProcessors.find (@bodyProcessors Sample.env)
       (Body.enctype (BrowseRequest.body Sample.xmlRequest)) = None
   ∧ (@devToolsListener Sample.env 1%nat
        (BackgroundExecuteMessage 7 Sample.xmlRequest) Sample.busyWorld).1
     = Normal (Throw (Error "Unsupported enctype")))
  ∧ ¬ (∀ (env : Env) (devToolsConnection : Port) (tabId : Z)
         (data : BrowseRequest.t) (w : World),
         includes BodyAvailableMethods (BrowseRequest.method data) = true →
         BodyProcessors.find bodyProcessors
           (Body.enctype (BrowseRequest.body data)) = None →
         (devToolsListener devToolsConnection
            (BackgroundExecuteMessage tabId data) w).1
         = Throw (Error "Unsupported enctype")).
Proof.
  split; [repeat split |].
  intros Hclaim.
  specialize (Hclaim Sample.env 1%nat 7 Sample.xmlRequest Sample.busyWorld
                eq_refl eq_refl).
  discriminate Hclaim.
Qed.

Lemma C2_synthetic_content_type_witness :
  includes (@BodyAvailableMethods Sample.env)
    (BrowseRequest.method Sample.jsonRequest) = true
  ∧ BodyProcessors.find (@bodyProcessors Sample.env)
      (Body.enctype (BrowseRequest.body Sample.jsonRequest)) = Some Sample.json
  ∧ BodyProcessor.getFormEnctype Sample.json
    ≠ BodyProcessor.getHttpContentType Sample.json
  ∧ rulesOf 7
      (activeRules
         (@handleMessage Sample.env (BackgroundExecuteMessage 7 Sample.jsonRequest)
            Sample.busyWorld).2)
    = [Rule.mk 7
         (RuleAction.mk "modifyHeaders"
            [ModifyHeaderInfo.mk "x-a" SET (Some "1");
             ModifyHeaderInfo.mk "content-type" SET (Some "application/json")])
         (RuleCondition.mk [7] ["main_frame"])]
  ∧ BodyProcessor.getFormEnctype Sample.urlencoded
    = BodyProcessor.getHttpContentType Sample.urlencoded
  ∧ @modifiedHeaders Sample.env Sample.formRequest Sample.emptyWorld
    = (Normal [Sample.header "x-a" "1" false], Sample.emptyWorld).
Proof.
  split; [reflexivity |]. split; [reflexivity |]. split; [discriminate |].
  split; [| split; [reflexivity |]].
  - pose proof (@C2_synthetic_content_type Sample.env 7 Sample.jsonRequest
                  Sample.json Sample.busyWorld eq_refl eq_refl) as H.
    cbv zeta in H. destruct H as [H _].
    destruct H as (_ & _ & H); [discriminate |].
    exact (H eq_refl).
  - pose proof (@C2_synthetic_content_type Sample.env 7 Sample.formRequest
                  Sample.urlencoded Sample.emptyWorld eq_refl eq_refl) as H.
    cbv zeta in H. destruct H as [_ H].
    destruct H as [H _]; [reflexivity | exact H].
Defined.

Lemma C3_rule_replacement_witness :
  @modifiedHeaders Sample.env Sample.getRequest Sample.busyWorld
  = (Normal [Sample.header "x-a" "1" false], Sample.busyWorld)
  ∧ rulesOf 7
      (activeRules
         (@handleMessage Sample.env (BackgroundExecuteMessage 7 Sample.getRequest)
            Sample.busyWorld).2)
    = [Sample.activeRule].
Proof.
  split; [reflexivity |].
  pose proof (@C3_rule_replacement Sample.env 7 Sample.getRequest
                [Sample.header "x-a" "1" false] Sample.busyWorld eq_refl) as H.
  cbv zeta in H. destruct H as (_ & H & _).
  destruct H as (_ & H & _); [right; reflexivity | exact H].
Defined.

Lemma C4_terminal_event_teardown_witness :
  rulesOf 7 (activeRules Sample.emptyWorld) = []
  ∧ activeRules (@onTerminalEvent Sample.env onCompleted 7 Sample.emptyWorld).2
    = activeRules Sample.emptyWorld.
Proof.
  split; [reflexivity |].
  pose proof (@C4_terminal_event_teardown Sample.env onCompleted onErrorOccurred
                7 Sample.emptyWorld) as H.
  cbv zeta in H. destruct H as (_ & _ & _ & _ & _ & _ & H).
  apply H. reflexivity.
Defined.

Lemma C7_load_forwards_snapshot_witness :
  tabStore.getConnection (store Sample.busyWorld) 7 = Some 1%nat
  ∧ @handleMessage Sample.env (BackgroundLoadMessage 7) Sample.busyWorld
    = (Normal tt,
       mkWorld (store Sample.busyWorld) [Sample.activeRule]
         [PostMessage 1%nat (DevtoolsLoadMessage (Some Sample.snapshot))]).
Proof.
  split; [reflexivity |].
  pose proof (@C7_load_forwards_snapshot Sample.env 7 Sample.busyWorld) as H.
  cbv zeta in H. destruct H as [H _].
  exact (H 1%nat eq_refl).
Defined.

(** C7 as the spec has it does not hold: a [load] message for a tab without
    a peer is not dropped.  In the world the script starts in, nothing
    stored and no peer attached, a [load] message for tab 7 that arrives on
    connection 1 is answered on it. *)
Lemma C7_load_not_dropped_counterexample :
  (tabStore.getConnection (store Sample.emptyWorld) 7 = None
   ∧ calls
       (@devToolsListener Sample.env 1%nat (BackgroundLoadMessage 7)
          Sample.emptyWorld).2
     = [PostMessage 1%nat (DevtoolsLoadMessage None)])
  ∧ ¬ (∀ (env : Env) (devToolsConnection : Port) (tabId : Z) (w : World),
         tabStore.getConnection (store w) tabId = None →
         calls
           (devToolsListener devToolsConnection (BackgroundLoadMessage tabId) w).2
         = calls w).
Proof.
  split; [split; reflexivity |].
  intros Hclaim.
  specialize (Hclaim Sample.env 1%nat 7 Sample.emptyWorld eq_refl).
  discriminate Hclaim.
Qed.

Lemma C10_encoding_resolver_dereference_witness :
  @findContentTypeHeader Sample.env Sample.jsonHeaders
  = Some (HttpHeader.mk "Content-Type" (Some "application/json"))
  ∧ tabStore.getBrowseRequest (store Sample.busyWorld) 7 = Some Sample.snapshot
  ∧ tabStore.getBrowseRequest
      (store (@onBeforeSendHeaders Sample.env Sample.jsonHeaders Sample.busyWorld).2)
      7
    = Some (BrowseRequest.mk "http://example.test/login" "POST" []
              (Body.mk "application/json" "a=1"))
  ∧ tabStore.getBrowseRequest (store Sample.emptyWorld) 7 = None
  ∧ @onBeforeSendHeaders Sample.env Sample.jsonHeaders Sample.emptyWorld
    = (Throw (TypeError "body"), Sample.emptyWorld).
Proof.
  split; [reflexivity |]. split; [reflexivity |].
  split; [| split; [reflexivity |]].
  - pose proof (@C10_encoding_resolver_dereference Sample.env Sample.jsonHeaders
                  _ Sample.busyWorld eq_refl) as H.
    cbv zeta in H. destruct H as [H _].
    rewrite (H Sample.snapshot eq_refl). reflexivity.
  - pose proof (@C10_encoding_resolver_dereference Sample.env Sample.jsonHeaders
                  _ Sample.emptyWorld eq_refl) as H.
    cbv zeta in H. destruct H as [_ H].
    apply H. reflexivity.
Defined.

Lemma C5_tab_removal_clears_store_witness :
  @findContentTypeHeader Sample.env Sample.plainHeaders = None
  ∧ @onBeforeSendHeaders Sample.env Sample.plainHeaders
      (onRemoved 7 Sample.busyWorld).2
    = (Normal tt, (onRemoved 7 Sample.busyWorld).2).
Proof.
  split; [reflexivity |].
  pose proof (@C5_tab_removal_clears_store Sample.env 7 Sample.busyWorld) as H.
  cbv zeta in H. destruct H as (_ & _ & _ & _ & _ & _ & _ & H).
  apply H. reflexivity.
Defined.

(** C5 as the spec has it does not hold: after the tab-removal event of
    tab 7 its rule is still in the table, and a header-send event of the
    tab that carries a content-type header is not ignored; it throws. *)
Lemma C5_rule_survives_counterexample :
  (rulesOf 7 (activeRules (onRemoved 7 Sample.busyWorld).2) = [Sample.activeRule]
   ∧ (@onBeforeSendHeaders Sample.env Sample.jsonHeaders
        (onRemoved 7 Sample.busyWorld).2).1
     = Throw (TypeError "body"))
  ∧ ¬ (∀ (tabId : Z) (w : World),
         tabStore.getBrowseRequest (store (onRemoved tabId w).2) tabId = None
         ∧ tabStore.getConnection (store (onRemoved tabId w).2) tabId = None
         ∧ rulesOf tabId (activeRules (onRemoved tabId w).2) = []).
Proof.
  split; [split; reflexivity |].
  intros Hclaim.
  destruct (Hclaim 7 Sample.busyWorld) as (_ & _ & Hrules).
  discriminate Hrules.
Qed.

Lemma C8_raw_segments_witness :
  @decodesAscii Sample.env
  ∧ @bodyContent Sample.env
      (rawBody [UploadData.mk (Some (list_byte_of_string "hello ")) None;
                UploadData.mk None (Some "f.bin")])
    = "hello [Content of 'f.bin']"
  ∧ @bodyContent Sample.env
      (rawBody [UploadData.mk None (Some "f.bin"); UploadData.mk None None;
                UploadData.mk (Some (list_byte_of_string "x")) (Some "")])
    = "[Content of 'f.bin']x".
Proof.
  assert (Hdecode : @decodesAscii Sample.env) by (intros bytes _; reflexivity).
  pose proof (@C8_raw_segments Sample.env 7 "http://example.test/" "post" []
                Sample.emptyWorld) as H.
  destruct H as (_ & Hnil & Hfile & Hbytes & Hnone & Hhello).
  split; [exact Hdecode |]. split; [exact (Hhello Hdecode) |].
  rewrite (Hfile _ _ "f.bin"); [| reflexivity | discriminate].
  rewrite Hnone; [| left; reflexivity | reflexivity].
  rewrite (Hbytes _ _ (list_byte_of_string "x"));
    [| right; reflexivity | reflexivity].
  rewrite Hnil. reflexivity.
Defined.

(** ** The further properties on concrete inputs *)

Lemma execute_stops_on_rejected_rule_witness :
  @modifiedHeaders Sample.strictHost Sample.getRequest Sample.busyWorld
  = (Normal [Sample.header "x-a" "1" false], Sample.busyWorld)
  ∧ sessionRules [Sample.header "x-a" "1" false] ≠ []
  ∧ @validRule Sample.strictHost
      (sessionRule 7 (sessionRules [Sample.header "x-a" "1" false])) = false
  ∧ activeRules
      (@handleMessage Sample.strictHost
         (BackgroundExecuteMessage 7 Sample.getRequest) Sample.busyWorld).2
    = [Sample.activeRule].
Proof.
  split; [reflexivity |]. split; [discriminate |]. split; [reflexivity |].
  rewrite (@execute_stops_on_rejected_rule Sample.strictHost 7 Sample.getRequest
             [Sample.header "x-a" "1" false] Sample.busyWorld);
    [reflexivity | reflexivity | discriminate | reflexivity].
Defined.

Lemma execute_submits_body_witness :
  includes (@BodyAvailableMethods Sample.failingPage)
    (BrowseRequest.method Sample.jsonRequest) = true
  ∧ calls
      (@handleMessage Sample.failingPage
         (BackgroundExecuteMessage 7 Sample.jsonRequest) Sample.busyWorld).2
    = [UpdateSessionRules
         (updateRuleOptions 7
            (sessionRules
               [Sample.header "x-a" "1" false;
                Header.mk true "content-type" "application/json" false 0]));
       ExecuteScript 7 [Some "core/post.js"];
       TabsSendMessage 7
         (PageRequest
            (BrowseRequest.mk "http://example.test/login" "POST"
               [Sample.header "x-a" "1" false;
                Header.mk true "content-type" "application/json" false 0]
               (Body.mk "application/json" "a=1")));
       PostMessage 1%nat (DevtoolsErrorMessage "no form")].
Proof.
  split; [reflexivity |].
  pose proof (@execute_submits_body Sample.failingPage 7 Sample.jsonRequest
                [Sample.header "x-a" "1" false;
                 Header.mk true "content-type" "application/json" false 0]
                _ Sample.busyWorld eq_refl eq_refl eq_refl eq_refl eq_refl) as H.
  exact (f_equal (λ r, calls r.2) H).
Defined.

Lemma execute_failed_injection_keeps_rule_witness :
  @hostFails Sample.noInjection (ExecuteScript 7 [Some "core/post.js"]) = true
  ∧ @handleMessage Sample.noInjection
      (BackgroundExecuteMessage 7 Sample.formRequest) Sample.emptyWorld
    = (Throw (Rejected (ExecuteScript 7 [Some "core/post.js"])),
       mkWorld tabStore.empty [Sample.activeRule]
         [UpdateSessionRules
            (updateRuleOptions 7 (sessionRules [Sample.header "x-a" "1" false]));
          ExecuteScript 7 [Some "core/post.js"]]).
Proof.
  split; [reflexivity |].
  exact (@execute_failed_injection_keeps_rule Sample.noInjection 7
           Sample.formRequest [Sample.header "x-a" "1" false] _
           Sample.emptyWorld eq_refl eq_refl eq_refl eq_refl).
Defined.

Lemma execute_navigates_witness :
  includes (@BodyAvailableMethods Sample.env)
    (BrowseRequest.method Sample.getRequest) = false
  ∧ calls
      (@handleMessage Sample.env (BackgroundExecuteMessage 7 Sample.getRequest)
         Sample.emptyWorld).2
    = [UpdateSessionRules
         (updateRuleOptions 7 (sessionRules [Sample.header "x-a" "1" false]));
       TabsUpdate 7 "http://example.test/login"].
Proof.
  split; [reflexivity |].
  pose proof (@execute_navigates Sample.env 7 Sample.getRequest _
                Sample.emptyWorld eq_refl eq_refl) as H.
  exact (f_equal (λ r, calls r.2) H).
Defined.

Lemma test_message_forwards_payload_witness :
  TestData.action (TestData.mk "start" (Some "test/sqli.js")) = "start"
  ∧ @hostFails Sample.noInjection (ExecuteScript 7 [Some "test/sqli.js"]) = true
  ∧ calls
      (@handleMessage Sample.noInjection
         (BackgroundTestMessage 7 (TestData.mk "start" (Some "test/sqli.js")))
         Sample.emptyWorld).2
    = [ExecuteScript 7 [Some "test/sqli.js"]]
  ∧ TestData.action (TestData.mk "stop" None) ≠ "start"
  ∧ calls
      (@handleMessage Sample.env
         (BackgroundTestMessage 7 (TestData.mk "stop" None)) Sample.emptyWorld).2
    = [TabsSendMessage 7 (PageTest (TestData.mk "stop" None))].
Proof.
  split; [reflexivity |]. split; [reflexivity |]. split; [| split; [discriminate |]].
  - pose proof (@test_message_forwards_payload Sample.noInjection 7
                  (TestData.mk "start" (Some "test/sqli.js")) Sample.emptyWorld)
      as H.
    cbv zeta in H. destruct H as (H & _ & _).
    rewrite (H eq_refl eq_refl). reflexivity.
  - pose proof (@test_message_forwards_payload Sample.env 7
                  (TestData.mk "stop" None) Sample.emptyWorld) as H.
    cbv zeta in H. destruct H as (_ & _ & H).
    rewrite H by discriminate. reflexivity.
Defined.

Lemma control_message_attaches_peer_witness :
  (8 : Z) ≠ 7
  ∧ tabStore.getConnection
      (store (@devToolsListener Sample.env 2%nat
                (BackgroundExecuteMessage 7 Sample.xmlRequest) Sample.busyWorld).2)
      7
    = Some 2%nat
  ∧ tabStore.getConnection
      (store (@devToolsListener Sample.env 2%nat
                (BackgroundExecuteMessage 7 Sample.xmlRequest) Sample.busyWorld).2)
      8
    = None.
Proof.
  pose proof (@control_message_attaches_peer Sample.env 2%nat
                (BackgroundExecuteMessage 7 Sample.xmlRequest) Sample.busyWorld)
    as H.
  cbv zeta in H. destruct H as (_ & Hpeer & Hothers & _).
  split; [discriminate |]. split; [exact Hpeer |].
  rewrite (Hothers 8) by discriminate. reflexivity.
Defined.

Lemma capture_overwrites_snapshot_witness :
  OnBeforeRequestDetails.tabId
    (OnBeforeRequestDetails.mk 7 "http://example.test/" "get" None)
  = OnBeforeRequestDetails.tabId Sample.capture
  ∧ @onBeforeRequest Sample.env Sample.capture
      (@onBeforeRequest Sample.env
         (OnBeforeRequestDetails.mk 7 "http://example.test/" "get" None)
         Sample.busyWorld).2
    = @onBeforeRequest Sample.env Sample.capture Sample.busyWorld.
Proof.
  split; [reflexivity |].
  pose proof (@capture_overwrites_snapshot Sample.env
                (OnBeforeRequestDetails.mk 7 "http://example.test/" "get" None)
                Sample.capture Sample.busyWorld) as H.
  cbv zeta in H. destruct H as (_ & _ & _ & _ & _ & _ & H).
  apply H. reflexivity.
Defined.

Lemma resolve_after_capture_witness :
  OnBeforeSendHeadersDetails.tabId Sample.jsonHeaders
  = OnBeforeRequestDetails.tabId Sample.capture
  ∧ tabStore.getBrowseRequest
      (store (@onBeforeSendHeaders Sample.env Sample.jsonHeaders
                (@onBeforeRequest Sample.env Sample.capture Sample.emptyWorld).2).2)
      7
    = Some (BrowseRequest.mk "http://example.test/login" "POST" []
              (Body.mk "application/json" "a=1")).
Proof.
  split; [reflexivity |].
  pose proof (@resolve_after_capture Sample.env Sample.capture Sample.jsonHeaders
                Sample.emptyWorld eq_refl) as H.
  cbv zeta in H. destruct H as (_ & H & _). exact H.
Defined.

Lemma captured_snapshot_reaches_peer_witness :
  OnBeforeSendHeadersDetails.tabId Sample.plainHeaders
  = OnBeforeRequestDetails.tabId Sample.capture
  ∧ calls
      (@run Sample.env
         [BeforeRequest Sample.capture; BeforeSendHeaders Sample.plainHeaders;
          ControlMessage 3%nat (BackgroundLoadMessage 7)]
         Sample.emptyWorld)
    = [PostMessage 3%nat
         (DevtoolsLoadMessage
            (Some (BrowseRequest.mk "http://example.test/login" "POST" []
                     (Body.mk "application/x-www-form-urlencoded" "a=1"))))].
Proof.
  split; [reflexivity |].
  pose proof (@captured_snapshot_reaches_peer Sample.env Sample.capture
                Sample.plainHeaders 3%nat Sample.emptyWorld eq_refl) as H.
  cbv zeta in H. destruct H as [H _]. exact H.
Defined.

Lemma run_keeps_table_invariant_witness :
  tableInvariant (activeRules Sample.busyWorld)
  ∧ tableInvariant (activeRules (@run Sample.env Sample.history Sample.busyWorld)).
Proof.
  assert (Hinv : tableInvariant (activeRules Sample.busyWorld)).
  { split.
    - apply NoDup_singleton.
    - constructor; [| constructor].
      unfold scriptRule. simpl. repeat split; try discriminate.
      constructor; [| constructor].
      split; [discriminate | eexists; reflexivity]. }
  split; [exact Hinv |].
  exact (@run_keeps_table_invariant Sample.env Sample.history Sample.busyWorld Hinv).
Defined.

Lemma run_without_execute_adds_no_rule_witness :
  forallb (λ event, negb (isExecute event)) Sample.quietHistory = true
  ∧ sublist (activeRules (@run Sample.env Sample.quietHistory Sample.busyWorld))
      [Sample.activeRule].
Proof.
  split; [reflexivity |].
  exact (@run_without_execute_adds_no_rule Sample.env Sample.quietHistory
           Sample.busyWorld eq_refl).
Defined.

Lemma run_snapshots_without_edits_witness :
  (∀ tabId request,
     tabStore.getBrowseRequest (store Sample.emptyWorld) tabId = Some request →
     BrowseRequest.headers request = [])
  ∧ tabStore.getBrowseRequest
      (store (@run Sample.env
                [BeforeRequest Sample.capture;
                 ControlMessage 1%nat (BackgroundExecuteMessage 7 Sample.jsonRequest)]
                Sample.emptyWorld))
      7
    = Some (BrowseRequest.mk "http://example.test/login" "POST" []
              (Body.mk "application/x-www-form-urlencoded" "a=1"))
  ∧ BrowseRequest.headers
      (BrowseRequest.mk "http://example.test/login" "POST" []
         (Body.mk "application/x-www-form-urlencoded" "a=1"))
    = [].
Proof.
  assert (Hempty : ∀ tabId request,
            tabStore.getBrowseRequest (store Sample.emptyWorld) tabId = Some request →
            BrowseRequest.headers request = []).
  { intros tabId request Hrequest.
    unfold tabStore.getBrowseRequest in Hrequest. simpl in Hrequest.
    rewrite lookup_empty in Hrequest. discriminate Hrequest. }
  split; [exact Hempty |]. split; [reflexivity |].
  exact (@run_snapshots_without_edits Sample.env
           [BeforeRequest Sample.capture;
            ControlMessage 1%nat (BackgroundExecuteMessage 7 Sample.jsonRequest)]
           Sample.emptyWorld Hempty 7 _ eq_refl).
Defined.

Lemma page_message_goes_to_tab_peer_witness :
  onMessage (λ port _, Nat.eqb port 5) "done"
    (MessageSender.mk (Some (Tab.mk (Some 7)))) (store Sample.busyWorld)
  = Posted 1%nat (DevtoolsTestMessage "done")
  ∧ onMessage (λ _ _, true) "done"
      (MessageSender.mk (Some (Tab.mk (Some 7)))) (store Sample.busyWorld)
    = PostFailed 1%nat (DevtoolsTestMessage "done")
  ∧ onMessage (λ _ _, false) "done"
      (MessageSender.mk (Some (Tab.mk (Some 0)))) (store Sample.busyWorld)
    = Ignored
  ∧ onMessage (λ _ _, false) "done"
      (MessageSender.mk (Some (Tab.mk (Some 9)))) (store Sample.busyWorld)
    = Faulted (TypeError "postMessage").
Proof.
  split; [| split; [| split]].
  - pose proof (page_message_goes_to_tab_peer (λ port _, Nat.eqb port 5) "done"
                  (MessageSender.mk (Some (Tab.mk (Some 7))))
                  (store Sample.busyWorld)) as H.
    cbv zeta in H. destruct H as (H & _).
    apply H. exists 7. repeat split. discriminate.
  - pose proof (page_message_goes_to_tab_peer (λ _ _, true) "done"
                  (MessageSender.mk (Some (Tab.mk (Some 7))))
                  (store Sample.busyWorld)) as H.
    cbv zeta in H. destruct H as (_ & H & _).
    apply H. exists 7. repeat split. discriminate.
  - pose proof (page_message_goes_to_tab_peer (λ _ _, false) "done"
                  (MessageSender.mk (Some (Tab.mk (Some 0))))
                  (store Sample.busyWorld)) as H.
    cbv zeta in H. destruct H as (_ & _ & H & _).
    apply H. right. reflexivity.
  - pose proof (page_message_goes_to_tab_peer (λ _ _, false) "done"
                  (MessageSender.mk (Some (Tab.mk (Some 9))))
                  (store Sample.busyWorld)) as H.
    cbv zeta in H. destruct H as (_ & _ & _ & H).
    apply H. split; [reflexivity |]. exists 9. repeat split. discriminate.
Defined.

Lemma command_goes_to_active_tab_peer_witness :
  @onCommand string (λ _ _, false)
    (Normal [Tab.mk (Some 7); Tab.mk (Some 9)]) "load_url"
    (store Sample.busyWorld)
  = Posted 1%nat (DevtoolsCommandMessage "load_url")
  ∧ @onCommand string (λ _ _, true)
      (Normal [Tab.mk (Some 7); Tab.mk (Some 9)]) "load_url"
      (store Sample.busyWorld)
    = PostFailed 1%nat (DevtoolsCommandMessage "load_url")
  ∧ @onCommand string (λ _ _, false)
      (Normal [Tab.mk (Some 9); Tab.mk (Some 7)]) "load_url"
      (store Sample.busyWorld)
    = Ignored
  ∧ @onCommand string (λ _ _, false) (Normal []) "load_url"
      (store Sample.busyWorld)
    = Faulted (TypeError "id").
Proof.
  split; [| split; [| split]].
  - pose proof (@command_goes_to_active_tab_peer string (λ _ _, false)
                  (Normal [Tab.mk (Some 7); Tab.mk (Some 9)]) "load_url"
                  (store Sample.busyWorld)) as H.
    cbv zeta in H. destruct H as (H & _).
    apply H. exists 7. split; [| repeat split].
    eexists _, _. repeat split. discriminate.
  - pose proof (@command_goes_to_active_tab_peer string (λ _ _, true)
                  (Normal [Tab.mk (Some 7); Tab.mk (Some 9)]) "load_url"
                  (store Sample.busyWorld)) as H.
    cbv zeta in H. destruct H as (_ & H & _).
    apply H. exists 7. split; [| repeat split].
    eexists _, _. repeat split. discriminate.
  - pose proof (@command_goes_to_active_tab_peer string (λ _ _, false)
                  (Normal [Tab.mk (Some 9); Tab.mk (Some 7)]) "load_url"
                  (store Sample.busyWorld)) as H.
    cbv zeta in H. destruct H as (_ & _ & H & _).
    apply H. eexists _, _. split; [reflexivity |].
    right. right. exists 9. split; reflexivity.
  - pose proof (@command_goes_to_active_tab_peer string (λ _ _, false)
                  (Normal []) "load_url" (store Sample.busyWorld)) as H.
    cbv zeta in H. destruct H as (_ & _ & _ & H).
    apply H. right. split; reflexivity.
Defined.

Lemma form_body_determines_pairs_witness :
  @bodyContent Sample.env
    (formBody [("a", [FormString "1"; FormString "x y"])] None)
  = @bodyContent Sample.env
      (formBody [("a", [FormString "1"]); ("a", [FormString "x y"])] (Some []))
  ∧ @formPairs Sample.env [("a", [FormString "1"; FormString "x y"])]
    = @formPairs Sample.env [("a", [FormString "1"]); ("a", [FormString "x y"])].
Proof.
  split; [reflexivity |].
  exact (@form_body_determines_pairs Sample.env
           [("a", [FormString "1"; FormString "x y"])]
           [("a", [FormString "1"]); ("a", [FormString "x y"])]
           None (Some []) eq_refl).
Defined.

Lemma capture_body_precedence_witness :
  "f.bin" ≠ ""
  ∧ @bodyContent Sample.env
      (rawBody [UploadData.mk (Some (list_byte_of_string "ignored")) (Some "f.bin")])
    = @bodyContent Sample.env (rawBody [UploadData.mk None (Some "f.bin")]).
Proof.
  split; [discriminate |].
  pose proof (@capture_body_precedence Sample.env [] [] []
                (Some (list_byte_of_string "ignored")) None "f.bin" []) as H.
  destruct H as (_ & _ & _ & _ & H). apply H. discriminate.
Defined.
